(** * Host lifecycle and Linux preflight registry of crc: a verification development

    The development embeds two Go files:
    - [vendor/github.com/code-ready/machine/libmachine/host/host.go]
      (the [Host] record, the hostname validator, Start/Stop/Kill/Restart,
      UpdateConfig and URL);
    - [pkg/crc/preflight/preflight_linux.go] (the libvirt check table, the
      vsock check and the functions assembling the list of preflight checks).

    Go strings are byte strings ([string]); [[]byte] is [list byte]; Go's
    [error] interface is the inductive [error] with [None] for [nil]. *)

From Stdlib Require Import List String Ascii Bool Arith ZArith NArith Lia.
From Stdlib Require Import DecimalString.
Import ListNotations.
Open Scope string_scope.
Open Scope list_scope.

(* ================================================================== *)
(** * Part I: definitions *)
(* ================================================================== *)

(** ** package regexp (the fragment used by [validHostNamePattern]) *)

Module regexp.

(** One entry of a bracket expression: a range [lo-hi] or one literal byte. *)
Inductive item : Type :=
| Range (lo hi : ascii)
| Lit (c : ascii).

Definition class : Type := list item.

Definition inItem (c : ascii) (i : item) : bool :=
  match i with
  | Range lo hi =>
      (N_of_ascii lo <=? N_of_ascii c)%N && (N_of_ascii c <=? N_of_ascii hi)%N
  | Lit x => Ascii.eqb c x
  end.

Definition inClass (c : ascii) (cl : class) : bool := existsb (inItem c) cl.

(** Every byte of [s] is in the class [cl]. *)
Fixpoint allIn (cl : class) (s : string) : bool :=
  match s with
  | EmptyString => true
  | String c t => inClass c cl && allIn cl t
  end.

(** Parsed syntax, after the operators of Go's [regexp/syntax]. *)
Inductive syntax : Type :=
| NoMatch
| EmptyMatch
| CharClass (cl : class)
| Concat (a b : syntax)
| Alternate (a b : syntax)
| Star (a : syntax).

(** A pattern: is it anchored by [^] on the left, by [$] on the right
    (without the [m] flag [$] is the end of the text), and its body. *)
Record Regexp : Type := mkRegexp {
  beginText : bool;
  body : syntax;
  endText : bool
}.

Fixpoint nullable (r : syntax) : bool :=
  match r with
  | NoMatch => false
  | EmptyMatch => true
  | CharClass _ => false
  | Concat a b => nullable a && nullable b
  | Alternate a b => nullable a || nullable b
  | Star _ => true
  end.

Definition cat (a b : syntax) : syntax :=
  match a with
  | NoMatch => NoMatch
  | EmptyMatch => b
  | _ => Concat a b
  end.

Definition alt (a b : syntax) : syntax :=
  match a, b with
  | NoMatch, _ => b
  | _, NoMatch => a
  | _, _ => Alternate a b
  end.

(** Brzozowski derivative of [r] by the byte [c]. *)
Fixpoint deriv (c : ascii) (r : syntax) : syntax :=
  match r with
  | NoMatch => NoMatch
  | EmptyMatch => NoMatch
  | CharClass cl => if inClass c cl then EmptyMatch else NoMatch
  | Concat a b =>
      alt (cat (deriv c a) b) (if nullable a then deriv c b else NoMatch)
  | Alternate a b => alt (deriv c a) (deriv c b)
  | Star a => cat (deriv c a) (Star a)
  end.

(** The whole of [s] matches [r]. *)
Fixpoint matchAll (r : syntax) (s : string) : bool :=
  match s with
  | EmptyString => nullable r
  | String c t => matchAll (deriv c r) t
  end.

(** Some prefix of [s] matches [r]. *)
Fixpoint matchPrefix (r : syntax) (s : string) : bool :=
  nullable r ||
  match s with
  | EmptyString => false
  | String c t => matchPrefix (deriv c r) t
  end.

Definition matchHere (re : Regexp) (s : string) : bool :=
  if endText re then matchAll (body re) s else matchPrefix (body re) s.

(** A match starting at some position of [s]. *)
Fixpoint matchSomewhere (re : Regexp) (s : string) : bool :=
  matchHere re s ||
  match s with
  | EmptyString => false
  | String _ t => matchSomewhere re t
  end.

(** [Regexp.MatchString]: does [s] contain a match of the pattern. *)
Definition MatchString (re : Regexp) (s : string) : bool :=
  if beginText re then matchHere re s else matchSomewhere re s.

End regexp.

(** ** package state *)

Module state.

(** Modelled from the spec: the package [state] is not part of the sources;
    the spec lists the states Starting, Running, Paused, Stopping, Stopped,
    Error, Timeout and Saved, compared only for equality. *)
Inductive State : Type :=
| Starting | Running | Paused | Stopping | Stopped | Error | Timeout | Saved.

Definition eqb (a b : State) : bool :=
  match a, b with
  | Starting, Starting | Running, Running | Paused, Paused
  | Stopping, Stopping | Stopped, Stopped | Error, Error
  | Timeout, Timeout | Saved, Saved => true
  | _, _ => false
  end.

End state.

(** ** Go errors *)

(** The values of Go's [error] interface that the two files create or
    inspect.  [nil] is [None] of [option error].  [ErrHostAlreadyInState]
    has the two fields that [runActionForState] fills in; the error of
    [mcnutils.WaitFor] is the Timeout error of the spec. *)
Inductive error : Type :=
| errorString (s : string)                 (* errors.New, fmt.Errorf without %w *)
| wrapError (msg : string) (err : error)   (* fmt.Errorf with %w: Unwrap gives err *)
| ServerError (s : string)                 (* net/rpc: type ServerError string *)
| ErrHostAlreadyInState (Name : string) (State : state.State)  (* mcnerror *)
| ErrNotImplemented                        (* the sentinel drivers.ErrNotImplemented *)
| ErrTimeout.                              (* the failure of mcnutils.WaitFor *)

(** [errors.As(err, &e)] for [e] of type [rpc.ServerError]: some error of the
    Unwrap chain of [err] has the dynamic type [rpc.ServerError]. *)
Fixpoint errorsAsServerError (err : error) : bool :=
  match err with
  | ServerError _ => true
  | wrapError _ inner => errorsAsServerError inner
  | _ => false
  end.

Definition bytes : Type := list Byte.byte.

(** ** Effects: calls to the driver and log lines *)

(** The methods of the Driver Capability Contract. *)
Inductive DriverCall : Type :=
| CallStart | CallStop | CallKill | CallRestart
| CallGetState | CallGetURL
| CallUpdateConfigRaw (rawConfig : bytes).

(** What an operation does that its caller can observe besides its result:
    the driver methods it invokes and the lines it logs, in order. *)
Inductive Event : Type :=
| Call (c : DriverCall)
| Infof (format arg : string).

(** A computation over a mutable state [S]: the result, the state afterwards
    and the events of the run. *)
Definition M (S A : Type) : Type := S -> A * S * list Event.

Definition ret {S A} (a : A) : M S A := fun s => (a, s, []).

Definition bind {S A B} (m : M S A) (k : A -> M S B) : M S B :=
  fun s =>
    let '(a, s1, e1) := m s in
    let '(b, s2, e2) := k a s1 in
    (b, s2, e1 ++ e2).

Definition get {S} : M S S := fun s => (s, s, []).

Definition emit {S} (e : Event) : M S unit := fun s => (tt, s, [e]).

Declare Scope go_scope.
Delimit Scope go_scope with go.
Notation "x <- c1 ;; c2" := (bind c1 (fun x => c2))
  (at level 61, c1 at next level, right associativity) : go_scope.
Notation "c1 ;; c2" := (bind c1 (fun _ => c2))
  (at level 61, right associativity) : go_scope.
Open Scope go_scope.

Definition result {S A} (r : A * S * list Event) : A := fst (fst r).
Definition final {S A} (r : A * S * list Event) : S := snd (fst r).
Definition events {S A} (r : A * S * list Event) : list Event := snd r.

(** ** package drivers *)

Module drivers.

(** Modelled from the spec: the declaration of the interface [Driver] is
    not part of the sources; the spec gives Start, Stop, Kill and Restart
    returning success or failure, GetState returning a State, GetURL
    returning a string and a failure, UpdateConfigRaw taking bytes and
    returning a failure.  The methods act on the state [W] of a backend:
    each returns its Go results and the state of the backend afterwards. *)
Record Driver (W : Type) : Type := mkDriver {
  Start : W -> option error * W;
  Stop : W -> option error * W;
  Kill : W -> option error * W;
  Restart : W -> option error * W;
  GetState : W -> state.State * W;
  GetURL : W -> (string * option error) * W;
  UpdateConfigRaw : bytes -> W -> option error * W
}.

Arguments Start {W} _ _.
Arguments Stop {W} _ _.
Arguments Kill {W} _ _.
Arguments Restart {W} _ _.
Arguments GetState {W} _ _.
Arguments GetURL {W} _ _.
Arguments UpdateConfigRaw {W} _ _ _.

(** One invocation of a driver method, recorded as an event. *)
Definition call {W A} (c : DriverCall) (method : W -> A * W) : M W A :=
  fun w => let '(a, w') := method w in (a, w', [Call c]).

(** Modelled from the spec: [MachineInState] is not part of the sources;
    the spec describes the predicate "is the driver currently in state S",
    supplied by the Driver Capability Contract and evaluated by asking the
    driver for its state. *)
Definition MachineInState {W} (d : Driver W) (desiredState : state.State)
  : M W bool :=
  currentState <- call CallGetState (GetState d) ;;
  ret (state.eqb currentState desiredState).

End drivers.

(** ** package mcnutils *)

Module mcnutils.

(** Modelled from the spec: [WaitFor] is not part of the sources; the spec
    has it evaluate the predicate repeatedly with a bounded number of
    attempts, return success the first time the predicate is true, and fail
    with a Timeout error when the budget is exhausted.  The delay between
    attempts is not modelled. *)
Fixpoint WaitFor {S} (maxAttempts : nat) (f : M S bool) : M S (option error) :=
  match maxAttempts with
  | O => ret (Some ErrTimeout)
  | S n =>
      stop <- f ;;
      if stop then ret None else WaitFor n f
  end.

End mcnutils.

(** ** package host *)

Module host.

Section Host.

(** The state of the backend behind the [Driver] field, the method table
    of its dynamic type, the retry budget of [mcnutils.WaitFor], the text
    of the errors whose [Error] methods live in packages that are not
    part of the sources, and the option structs of other packages. *)
Variable W : Type.
Variable d : drivers.Driver W.
Variable maxAttempts : nat.
Variable typedErrorText : error -> string.
Variables engine_Options swarm_Options auth_Options : Type.

Record Options : Type := mkOptions {
  Options_Driver : string;
  Options_Memory : Z;
  Options_Disk : Z;
  EngineOptions : option engine_Options;
  SwarmOptions : option swarm_Options;
  AuthOptions : option auth_Options
}.

Record Host : Type := mkHost {
  ConfigVersion : Z;
  Driver : W;
  DriverName : string;
  DriverPath : string;
  HostOptions : option Options;
  Name : string;
  RawDriver : bytes
}.

(** [err.Error()]. *)
Definition Error (err : error) : string :=
  match err with
  | errorString s => s
  | wrapError msg _ => msg
  | ServerError s => s
  | other => typedErrorText other
  end.

(** The host [h] with the backend behind [h.Driver] in the state [w]. *)
Definition withDriver (h : Host) (w : W) : Host :=
  mkHost (ConfigVersion h) w (DriverName h) (DriverPath h)
         (HostOptions h) (Name h) (RawDriver h).

(** A call through [h.Driver]: it runs on the backend and leaves the
    other fields of the host alone. *)
Definition onDriver {A} (m : M W A) : M Host A :=
  fun h =>
    let '(a, w', evs) := m (Driver h) in
    (a, withDriver h w', evs).

(** [h.RawDriver = rawConfig]. *)
Definition setRawDriver (rawConfig : bytes) : M Host unit :=
  fun h =>
    (tt,
     mkHost (ConfigVersion h) (Driver h) (DriverName h) (DriverPath h)
            (HostOptions h) (Name h) rawConfig,
     []).

(** [log.Infof(format, h.Name)]. *)
Definition log_Infof (format : string) : M Host unit :=
  h <- get ;; emit (Infof format (Name h)).

(** [var validHostNamePattern = regexp.MustCompile(...)], the pattern
    [^[a-zA-Z0-9][a-zA-Z0-9\-\.]*$]. *)
Definition validHostNamePattern : regexp.Regexp :=
  regexp.mkRegexp
    true
    (regexp.Concat
       (regexp.CharClass
          [regexp.Range "a" "z"; regexp.Range "A" "Z"; regexp.Range "0" "9"])
       (regexp.Star
          (regexp.CharClass
             [regexp.Range "a" "z"; regexp.Range "A" "Z";
              regexp.Range "0" "9"; regexp.Lit "-"; regexp.Lit "."])))
    true.

Definition ValidateHostName (name : string) : bool :=
  regexp.MatchString validHostNamePattern name.

Definition runActionForState (action : M Host (option error))
           (desiredState : state.State) : M Host (option error) :=
  inState <- onDriver (drivers.MachineInState d desiredState) ;;
  if inState then
    h <- get ;;
    ret (Some (ErrHostAlreadyInState (Name h) desiredState))
  else
    err <- action ;;
    match err with
    | Some e => ret (Some e)
    | None =>
        mcnutils.WaitFor maxAttempts
          (onDriver (drivers.MachineInState d desiredState))
    end.

Definition Start : M Host (option error) :=
  log_Infof "Starting %q..." ;;
  err <- runActionForState
           (onDriver (drivers.call CallStart (drivers.Start d)))
           state.Running ;;
  match err with
  | Some e => ret (Some e)
  | None => log_Infof "Machine %q was started." ;; ret None
  end.

Definition Stop : M Host (option error) :=
  log_Infof "Stopping %q..." ;;
  err <- runActionForState
           (onDriver (drivers.call CallStop (drivers.Stop d)))
           state.Stopped ;;
  match err with
  | Some e => ret (Some e)
  | None => log_Infof "Machine %q was stopped." ;; ret None
  end.

Definition Kill : M Host (option error) :=
  log_Infof "Killing %q..." ;;
  err <- runActionForState
           (onDriver (drivers.call CallKill (drivers.Kill d)))
           state.Stopped ;;
  match err with
  | Some e => ret (Some e)
  | None => log_Infof "Machine %q was killed." ;; ret None
  end.

Definition Restart : M Host (option error) :=
  log_Infof "Restarting %q..." ;;
  stopped <- onDriver (drivers.MachineInState d state.Stopped) ;;
  if stopped then
    err <- Start ;;
    match err with
    | Some e => ret (Some e)
    | None => ret None
    end
  else
    running <- onDriver (drivers.MachineInState d state.Running) ;;
    if running then
      err <- onDriver (drivers.call CallRestart (drivers.Restart d)) ;;
      match err with
      | Some e => ret (Some e)
      | None =>
          err <- mcnutils.WaitFor maxAttempts
                   (onDriver (drivers.MachineInState d state.Running)) ;;
          match err with
          | Some e => ret (Some e)
          | None => ret None
          end
      end
    else ret None.

Definition UpdateConfig (rawConfig : bytes) : M Host (option error) :=
  err <- onDriver (drivers.call (CallUpdateConfigRaw rawConfig)
                                (drivers.UpdateConfigRaw d rawConfig)) ;;
  match err with
  | Some e =>
      if errorsAsServerError e && String.eqb (Error e) "Not Implemented"
      then ret (Some ErrNotImplemented)
      else ret (Some e)
  | None =>
      setRawDriver rawConfig ;;
      ret None
  end.

Definition URL : M Host (string * option error) :=
  onDriver (drivers.call CallGetURL (drivers.GetURL d)).

(** *** Vocabulary of the statements about the host *)

(** The three operations with a single target state. *)
Inductive Lifecycle : Type := OpStart | OpStop | OpKill.

Definition run (op : Lifecycle) : M Host (option error) :=
  match op with
  | OpStart => Start
  | OpStop => Stop
  | OpKill => Kill
  end.

Definition target (op : Lifecycle) : state.State :=
  match op with
  | OpStart => state.Running
  | OpStop => state.Stopped
  | OpKill => state.Stopped
  end.

Definition actionCall (op : Lifecycle) : DriverCall :=
  match op with
  | OpStart => CallStart
  | OpStop => CallStop
  | OpKill => CallKill
  end.

Definition driverAction (op : Lifecycle) : W -> option error * W :=
  match op with
  | OpStart => drivers.Start d
  | OpStop => drivers.Stop d
  | OpKill => drivers.Kill d
  end.

(** [Reached s k w w']: asked [k] times in a row from [w], the driver
    reports [s] at the [k]-th time and not before, and is left in [w']. *)
Inductive Reached (s : state.State) : nat -> W -> W -> Prop :=
| Reached_now w w' :
    drivers.GetState d w = (s, w') -> Reached s 1 w w'
| Reached_later k w s0 w0 w' :
    drivers.GetState d w = (s0, w0) -> s0 <> s ->
    Reached s k w0 w' -> Reached s (S k) w w'.

(** [NotReached s n w w']: asked [n] times in a row from [w], the driver
    never reports [s], and is left in [w']. *)
Inductive NotReached (s : state.State) : nat -> W -> W -> Prop :=
| NotReached_O w : NotReached s 0 w w
| NotReached_S n w s0 w0 w' :
    drivers.GetState d w = (s0, w0) -> s0 <> s ->
    NotReached s n w0 w' -> NotReached s (S n) w w'.

(** The fields of a host other than [Driver] are the same in [h] and [h']. *)
Definition sameFields (h h' : Host) : Prop :=
  ConfigVersion h' = ConfigVersion h /\
  DriverName h' = DriverName h /\
  DriverPath h' = DriverPath h /\
  HostOptions h' = HostOptions h /\
  Name h' = Name h /\
  RawDriver h' = RawDriver h.

(** A computation that leaves every field other than [Driver] as it
    found it, whatever the host it starts from. *)
Definition preservesFields {A} (m : M Host A) : Prop :=
  forall h, sameFields h (final (m h)).

End Host.

Arguments ConfigVersion {W engine_Options swarm_Options auth_Options} h.
Arguments Driver {W engine_Options swarm_Options auth_Options} h.
Arguments DriverName {W engine_Options swarm_Options auth_Options} h.
Arguments DriverPath {W engine_Options swarm_Options auth_Options} h.
Arguments HostOptions {W engine_Options swarm_Options auth_Options} h.
Arguments Name {W engine_Options swarm_Options auth_Options} h.
Arguments RawDriver {W engine_Options swarm_Options auth_Options} h.
Arguments withDriver {W engine_Options swarm_Options auth_Options} h w.
Arguments onDriver {W engine_Options swarm_Options auth_Options A} m _.
Arguments setRawDriver {W engine_Options swarm_Options auth_Options} rawConfig _.
Arguments log_Infof {W engine_Options swarm_Options auth_Options} format _.
Arguments runActionForState {W} d maxAttempts
  {engine_Options swarm_Options auth_Options} action desiredState _.
Arguments Start {W} d maxAttempts {engine_Options swarm_Options auth_Options} _.
Arguments Stop {W} d maxAttempts {engine_Options swarm_Options auth_Options} _.
Arguments Kill {W} d maxAttempts {engine_Options swarm_Options auth_Options} _.
Arguments Restart {W} d maxAttempts {engine_Options swarm_Options auth_Options} _.
Arguments UpdateConfig {W} d typedErrorText
  {engine_Options swarm_Options auth_Options} rawConfig _.
Arguments URL {W} d {engine_Options swarm_Options auth_Options} _.
Arguments run {W} d maxAttempts {engine_Options swarm_Options auth_Options} op _.
Arguments driverAction {W} d op _.
Arguments Reached {W} d s _ _ _.
Arguments NotReached {W} d s _ _ _.
Arguments sameFields {W engine_Options swarm_Options auth_Options} h h'.
Arguments preservesFields {W engine_Options swarm_Options auth_Options A} m.

(** The grammar of host names as the specification writes it,
    [^[A-Za-z0-9][A-Za-z0-9.-]*$]. *)
Definition hostNameGrammar : regexp.Regexp :=
  regexp.mkRegexp
    true
    (regexp.Concat
       (regexp.CharClass
          [regexp.Range "A" "Z"; regexp.Range "a" "z"; regexp.Range "0" "9"])
       (regexp.Star
          (regexp.CharClass
             [regexp.Range "A" "Z"; regexp.Range "a" "z";
              regexp.Range "0" "9"; regexp.Lit "."; regexp.Lit "-"])))
    true.

End host.

(** The start, stop, kill and restart calls among the events of a run. *)
Definition isAction (c : DriverCall) : bool :=
  match c with
  | CallStart | CallStop | CallKill | CallRestart => true
  | _ => false
  end.

Fixpoint actionCalls (evs : list Event) : list DriverCall :=
  match evs with
  | [] => []
  | Call c :: rest => if isAction c then c :: actionCalls rest else actionCalls rest
  | Infof _ _ :: rest => actionCalls rest
  end.

(** ** package preflight (Linux) *)

(** A Go call returning [(value, err)] whose caller looks at [err] first. *)
Inductive res (A : Type) : Type :=
| Ok (a : A)
| Err (e : error).
Arguments Ok {A} a.
Arguments Err {A} e.

(** [strings.Contains(s, substr)]. *)
Fixpoint Contains (s substr : string) : bool :=
  String.prefix substr s ||
  match s with
  | EmptyString => false
  | String _ t => Contains t substr
  end.

(** [fmt.Sprint] of an unsigned integer: its decimal digits. *)
Definition Sprint (n : N) : string := NilZero.string_of_uint (N.to_uint n).

Module preflight.

(** [syscall.Stat_t], of which the check reads [Gid] (a uint32). *)
Record Stat_t : Type := mkStat_t { Gid : N }.

(** [os.FileInfo]: [Mode()] as the integer of its bits, and [Sys()] as
    [Some] when the type assertion to [*syscall.Stat_t] succeeds. *)
Record FileInfo : Type := mkFileInfo {
  Mode : Z;
  Sys : option Stat_t
}.

(** [user.Group], of which the check reads [Name]. *)
Record Group : Type := mkGroup { Name : string }.

(** [linux.OsType] is a string type: [distro] returns the literal
    ["unknown"] as one. *)
Definition OsType : Type := string.

Record OsRelease : Type := mkOsRelease { ID : OsType }.

(** The operating system as the functions of this file query it. *)
Record OS : Type := mkOS {
  os_Executable : res string;
  crcos_RunWithDefaultLocale : string -> list string -> string * string * option error;
  os_Stat : string -> res FileInfo;
  user_LookupGroupId : string -> res Group;
  linux_GetOsRelease : res OsRelease
}.

(** An argument of a log line. *)
Inductive LogArg : Type :=
| ArgOsType (distro : OsType)
| ArgError (err : error).

(** [logging.Warnf(format, arg)]. *)
Inductive LogEntry : Type :=
| Warnf (format : string) (arg : LogArg).

(** Modelled from the spec: the declaration of [Check] is not part of the
    sources; the spec gives it a configuration key suffix, three
    descriptions, a detection function, an optional remediation and an
    optional teardown function, and a bitmask of flags.  A function value
    is the name of the function it refers to, [None] for a field left out;
    a field left out of a literal has its zero value. *)
Record Check : Type := mkCheck {
  configKeySuffix : string;
  checkDescription : string;
  check : option string;
  fixDescription : string;
  fix_ : option string;
  flags : Z;
  cleanupDescription : string;
  cleanup : option string
}.

Definition Check_eq_dec (a b : Check) : {a = b} + {a <> b}.
Proof.
  decide equality;
    try apply string_dec; try apply Z.eq_dec;
    try (decide equality; apply string_dec).
Defined.

(** Number of occurrences of the check [c] in a list of checks. *)
Definition occurrences (c : Check) (l : list Check) : nat :=
  count_occ Check_eq_dec l c.

Definition checkVsock (os : OS) : option error :=
  match os_Executable os with
  | Err err => Some err
  | Ok executable =>
      match crcos_RunWithDefaultLocale os "getcap" [executable] with
      | (_, _, Some err) => Some err
      | (getcap, _, None) =>
          if negb (Contains getcap "cap_net_bind_service+eip") then
            Some (errorString
                  (String.append "capabilities are not correct for " executable))
          else
            match os_Stat os "/dev/vsock" with
            | Err err => Some err
            | Ok info =>
                let castAndGroup :=
                  match Sys info with
                  | Some stat =>
                      match user_LookupGroupId os (Sprint (Gid stat)) with
                      | Err err => Some err
                      | Ok group =>
                          if negb (String.eqb (Name group) "libvirt") then
                            Some (errorString "/dev/vsock is not is the right group")
                          else None
                      end
                  | None => Some (errorString "cannot cast info")
                  end in
                match castAndGroup with
                | Some err => Some err
                | None =>
                    if Z.land (Mode info) 48 (* 0060 *) =? 0 then
                      Some (errorString "/dev/vsock doesn't have the right permissions")
                    else None
                end
            end
      end
  end%Z.

Definition vsockPreflightChecks : Check :=
  {| configKeySuffix := "check-vsock";
     checkDescription := "Checking if vsock is correctly configured";
     check := Some "checkVsock";
     fixDescription := "Checking if vsock is correctly configured";
     fix_ := Some "fixVsock";
     flags := 0;
     cleanupDescription := "";
     cleanup := None |}.

(** [distro()]: the id of the running distribution, ["unknown"] and a
    warning when it cannot be read. *)
Definition distro (os : OS) : OsType * list LogEntry :=
  match linux_GetOsRelease os with
  | Err err => ("unknown", [Warnf "cannot get distribution name: %v" (ArgError err)])
  | Ok rel => (ID rel, [])
  end.

Section Registry.

(** Declarations of other files of the package and of the packages
    [network] and [linux]: the type of network modes with its two
    constants, the constants naming distributions, the two flags, and the
    three check tables that are not in this file. *)
Variable network_Mode : Type.
Variable network_Mode_eq_dec : forall a b : network_Mode, {a = b} + {a <> b}.
Variables DefaultMode VSockMode : network_Mode.
Variables Ubuntu RHEL CentOS Fedora : OsType.
Variables SetupOnly CleanUpOnly : Z.
Variables genericPreflightChecks nonWinPreflightChecks redhatPreflightChecks
  : list Check.

Definition libvirtPreflightChecks : list Check :=
  [ {| configKeySuffix := "check-virt-enabled";
       checkDescription := "Checking if Virtualization is enabled";
       check := Some "checkVirtualizationEnabled";
       fixDescription := "Setting up virtualization";
       fix_ := Some "fixVirtualizationEnabled";
       flags := 0; cleanupDescription := ""; cleanup := None |};
    {| configKeySuffix := "check-kvm-enabled";
       checkDescription := "Checking if KVM is enabled";
       check := Some "checkKvmEnabled";
       fixDescription := "Setting up KVM";
       fix_ := Some "fixKvmEnabled";
       flags := 0; cleanupDescription := ""; cleanup := None |};
    {| configKeySuffix := "check-libvirt-installed";
       checkDescription := "Checking if libvirt is installed";
       check := Some "checkLibvirtInstalled";
       fixDescription := "Installing libvirt service and dependencies";
       fix_ := Some "fixLibvirtInstalled";
       flags := 0; cleanupDescription := ""; cleanup := None |};
    {| configKeySuffix := "check-user-in-libvirt-group";
       checkDescription := "Checking if user is part of libvirt group";
       check := Some "checkUserPartOfLibvirtGroup";
       fixDescription := "Adding user to libvirt group";
       fix_ := Some "fixUserPartOfLibvirtGroup";
       flags := 0; cleanupDescription := ""; cleanup := None |};
    {| configKeySuffix := "check-libvirt-running";
       checkDescription := "Checking if libvirt daemon is running";
       check := Some "checkLibvirtServiceRunning";
       fixDescription := "Starting libvirt service";
       fix_ := Some "fixLibvirtServiceRunning";
       flags := 0; cleanupDescription := ""; cleanup := None |};
    {| configKeySuffix := "check-libvirt-version";
       checkDescription := "Checking if a supported libvirt version is installed";
       check := Some "checkLibvirtVersion";
       fixDescription := "Installing a supported libvirt version";
       fix_ := Some "fixLibvirtVersion";
       flags := 0; cleanupDescription := ""; cleanup := None |};
    {| configKeySuffix := "check-libvirt-driver";
       checkDescription := "Checking if crc-driver-libvirt is installed";
       check := Some "checkMachineDriverLibvirtInstalled";
       fixDescription := "Installing crc-driver-libvirt";
       fix_ := Some "fixMachineDriverLibvirtInstalled";
       flags := 0; cleanupDescription := ""; cleanup := None |};
    {| configKeySuffix := "check-obsolete-libvirt-driver";
       checkDescription := "Checking for obsolete crc-driver-libvirt";
       check := Some "checkOldMachineDriverLibvirtInstalled";
       fixDescription := "Removing older system-wide crc-driver-libvirt";
       fix_ := Some "fixOldMachineDriverLibvirtInstalled";
       flags := SetupOnly; cleanupDescription := ""; cleanup := None |};
    {| configKeySuffix := "check-crc-network";
       checkDescription := "Checking if libvirt 'crc' network is available";
       check := Some "checkLibvirtCrcNetworkAvailable";
       fixDescription := "Setting up libvirt 'crc' network";
       fix_ := Some "fixLibvirtCrcNetworkAvailable";
       flags := 0;
       cleanupDescription := "Removing 'crc' network from libvirt";
       cleanup := Some "removeLibvirtCrcNetwork" |};
    {| configKeySuffix := "check-crc-network-active";
       checkDescription := "Checking if libvirt 'crc' network is active";
       check := Some "checkLibvirtCrcNetworkActive";
       fixDescription := "Starting libvirt 'crc' network";
       fix_ := Some "fixLibvirtCrcNetworkActive";
       flags := 0; cleanupDescription := ""; cleanup := None |};
    {| configKeySuffix := "";
       checkDescription := "";
       check := None;
       fixDescription := "";
       fix_ := None;
       flags := CleanUpOnly;
       cleanupDescription := "Removing the crc VM if exists";
       cleanup := Some "removeCrcVM" |} ]%Z.

Definition commonChecks : list Check :=
  let checks := [] in
  let checks := checks ++ genericPreflightChecks in
  let checks := checks ++ nonWinPreflightChecks in
  let checks := checks ++ libvirtPreflightChecks in
  checks.

Definition getPreflightChecksForDistro (distro : OsType)
           (networkMode : network_Mode) : list Check * list LogEntry :=
  let checks := commonChecks in
  let checks :=
    if network_Mode_eq_dec networkMode VSockMode
    then checks ++ [vsockPreflightChecks]
    else checks in
  if String.eqb distro Ubuntu then
    (checks, [])
  else if String.eqb distro RHEL || String.eqb distro CentOS
          || String.eqb distro Fedora then
    (if network_Mode_eq_dec networkMode DefaultMode
     then checks ++ redhatPreflightChecks
     else checks,
     [])
  else
    (if network_Mode_eq_dec networkMode DefaultMode
     then checks ++ redhatPreflightChecks
     else checks,
     [Warnf "distribution-specific preflight checks are not implemented for %s"
            (ArgOsType distro)]).

Definition getAllPreflightChecks (os : OS) : list Check * list LogEntry :=
  let '(id, log1) := distro os in
  let '(checks, log2) := getPreflightChecksForDistro id DefaultMode in
  let checks := checks ++ [vsockPreflightChecks] in
  (checks, log1 ++ log2).

Definition getPreflightChecks (os : OS) (_ : bool) (networkMode : network_Mode)
  : list Check * list LogEntry :=
  let '(id, log1) := distro os in
  let '(checks, log2) := getPreflightChecksForDistro id networkMode in
  (checks, log1 ++ log2).

(** The tables of the other files hold no vsock check. *)
Definition othersHaveNoVsock : Prop :=
  occurrences vsockPreflightChecks genericPreflightChecks = 0 /\
  occurrences vsockPreflightChecks nonWinPreflightChecks = 0 /\
  occurrences vsockPreflightChecks redhatPreflightChecks = 0.

End Registry.

End preflight.

(** ** A simulated backend and sample tables, to run the definitions *)

Module sample.

(** A virtual machine that needs [countdown] more state queries to settle
    in the state [goal]. *)
Record VM : Type := mkVM {
  current : state.State;
  countdown : nat;
  goal : state.State
}.

Definition report (vm : VM) : state.State * VM :=
  match countdown vm with
  | O => (goal vm, mkVM (goal vm) 0 (goal vm))
  | S n => (current vm, mkVM (current vm) n (goal vm))
  end.

(** A backend whose transitions always succeed and take a few queries to
    settle; its reconfiguration call answers [updateResult]. *)
Definition driver (updateResult : option error) : drivers.Driver VM :=
  drivers.mkDriver VM
    (fun _ => (None, mkVM state.Starting 2 state.Running))
    (fun _ => (None, mkVM state.Stopping 1 state.Stopped))
    (fun _ => (None, mkVM state.Stopped 0 state.Stopped))
    (fun _ => (None, mkVM state.Starting 1 state.Running))
    report
    (fun vm => (("tcp://192.168.130.11:2376", None), vm))
    (fun _ vm => (updateResult, vm)).

(** A backend that refuses to start. *)
Definition brokenDriver : drivers.Driver VM :=
  drivers.mkDriver VM
    (fun vm => (Some (errorString "no hypervisor"), vm))
    (fun vm => (Some (errorString "no hypervisor"), vm))
    (fun vm => (Some (errorString "no hypervisor"), vm))
    (fun vm => (Some (errorString "no hypervisor"), vm))
    report
    (fun vm => (("", Some (errorString "no hypervisor")), vm))
    (fun _ vm => (Some (errorString "no hypervisor"), vm)).

Definition stoppedVM : VM := mkVM state.Stopped 0 state.Stopped.
Definition runningVM : VM := mkVM state.Running 0 state.Running.
Definition pausedVM : VM := mkVM state.Paused 0 state.Paused.

Definition crc (vm : VM) : host.Host VM unit unit unit :=
  host.mkHost VM unit unit unit 3 vm "libvirt" "/usr/local/bin" None "crc"
              [Byte.x7b; Byte.x7d].

Definition noText (_ : error) : string := "".

Inductive Mode : Type := Default | VSock.

Definition Mode_eq_dec (a b : Mode) : {a = b} + {a <> b}.
Proof. decide equality. Defined.

Definition named (key : string) : preflight.Check :=
  preflight.mkCheck key "" (Some key) "" None 0 "" None.

Definition generic : list preflight.Check := [named "check-bundle-extracted"].
Definition nonWin : list preflight.Check := [named "check-root-user"].
Definition redhat : list preflight.Check := [named "check-network-manager-installed"].

(** The registry functions over the sample tables. *)
Definition getPreflightChecksForDistro :=
  preflight.getPreflightChecksForDistro Mode Mode_eq_dec Default VSock
    "ubuntu" "rhel" "centos" "fedora" 1 4 generic nonWin redhat.

Definition getAllPreflightChecks :=
  preflight.getAllPreflightChecks Mode Mode_eq_dec Default VSock
    "ubuntu" "rhel" "centos" "fedora" 1 4 generic nonWin redhat.

(** The [os.FileMode] of a character device with the permission bits
    [perm]: [ModeDevice | ModeCharDevice | perm]. *)
Definition charDevice (perm : Z) : Z :=
  Z.lor (Z.lor (Z.shiftl 1 26) (Z.shiftl 1 21)) perm.

(** A machine where vsock is set up, except that the device node has the
    mode [mode]. *)
Definition linuxBox (mode : Z) : preflight.OS :=
  preflight.mkOS
    (Ok "/usr/local/bin/crc")
    (fun _ _ => ("/usr/local/bin/crc = cap_net_bind_service+eip", "", None))
    (fun _ => Ok (preflight.mkFileInfo mode (Some (preflight.mkStat_t 107))))
    (fun gid => if String.eqb gid "107"
                then Ok (preflight.mkGroup "libvirt")
                else Ok (preflight.mkGroup "root"))
    (Ok (preflight.mkOsRelease "fedora")).

End sample.

(** ** package preflight: the remediation of the vsock check *)

Module remediation.

(** One call [crcos.RunWithPrivilege(reason, cmdAndArgs...)]. *)
Record Command : Type := mkCommand {
  reason : string;
  cmdAndArgs : list string
}.

Section Privileged.

(** The state of the machine that privileged commands change,
    [os.Executable] on it, and [crcos.RunWithPrivilege], which returns the
    two outputs and the error of the command and leaves the machine in a
    new state. *)
Variable Machine : Type.
Variable os_Executable : Machine -> res string.
Variable crcos_RunWithPrivilege :
  string -> list string -> Machine -> (string * string * option error) * Machine.

(** A privileged call of which only the error is kept, as in
    [_, _, err = crcos.RunWithPrivilege(...)]. *)
Definition RunWithPrivilege (c : Command) (m : Machine) : option error * Machine :=
  let '((_, _, err), m') := crcos_RunWithPrivilege (reason c) (cmdAndArgs c) m in
  (err, m').

(** [fixVsock()]: its error, the machine afterwards, and the privileged
    calls it made, in order. *)
Definition fixVsock (m : Machine) : option error * Machine * list Command :=
  match os_Executable m with
  | Err err => (Some err, m, [])
  | Ok executable =>
      let setcap :=
        mkCommand "setcap cap_net_bind_service=+eip"
                  ["setcap"; "cap_net_bind_service=+eip"; executable] in
      let '(err, m1) := RunWithPrivilege setcap m in
      match err with
      | Some e => (Some e, m1, [setcap])
      | None =>
          let modprobe :=
            mkCommand "modprobe vhost_vsock" ["modprobe"; "vhost_vsock"] in
          let '(err, m2) := RunWithPrivilege modprobe m1 in
          match err with
          | Some e => (Some e, m2, [setcap; modprobe])
          | None =>
              let chown :=
                mkCommand "chown /dev/vsock"
                          ["chown"; "root:libvirt"; "/dev/vsock"] in
              let '(err, m3) := RunWithPrivilege chown m2 in
              match err with
              | Some e => (Some e, m3, [setcap; modprobe; chown])
              | None =>
                  let chmod :=
                    mkCommand "chmod /dev/vsock"
                              ["chmod"; "g+rw"; "/dev/vsock"] in
                  let '(err, m4) := RunWithPrivilege chmod m3 in
                  match err with
                  | Some e => (Some e, m4, [setcap; modprobe; chown; chmod])
                  | None => (None, m4, [setcap; modprobe; chown; chmod])
                  end
              end
          end
      end
  end.

(** *** Vocabulary of the statements about the remediation *)

(** The four privileged calls of the remediation for the executable
    [executable], in the order of the source. *)
Definition vsockScript (executable : string) : list Command :=
  [ mkCommand "setcap cap_net_bind_service=+eip"
              ["setcap"; "cap_net_bind_service=+eip"; executable];
    mkCommand "modprobe vhost_vsock" ["modprobe"; "vhost_vsock"];
    mkCommand "chown /dev/vsock" ["chown"; "root:libvirt"; "/dev/vsock"];
    mkCommand "chmod /dev/vsock" ["chmod"; "g+rw"; "/dev/vsock"] ].

(** [Ran cs m m']: run one after the other from [m], the calls [cs] all
    succeed and leave the machine in [m']. *)
Inductive Ran : list Command -> Machine -> Machine -> Prop :=
| Ran_nil m : Ran [] m m
| Ran_cons c cs m m1 m' :
    RunWithPrivilege c m = (None, m1) -> Ran cs m1 m' -> Ran (c :: cs) m m'.

End Privileged.

Arguments Ran {Machine} crcos_RunWithPrivilege _ _ _.
Arguments RunWithPrivilege {Machine} crcos_RunWithPrivilege c m.
Arguments fixVsock {Machine} os_Executable crcos_RunWithPrivilege m.

End remediation.

(** ** Vocabulary of further statements *)

(** The line an operation logs when it begins and the one it logs when it
    has succeeded. *)
Definition announcement (op : host.Lifecycle) : string :=
  match op with
  | host.OpStart => "Starting %q..."
  | host.OpStop => "Stopping %q..."
  | host.OpKill => "Killing %q..."
  end.

Definition completion (op : host.Lifecycle) : string :=
  match op with
  | host.OpStart => "Machine %q was started."
  | host.OpStop => "Machine %q was stopped."
  | host.OpKill => "Machine %q was killed."
  end.

Definition isCall (e : Event) : Prop :=
  match e with
  | Call _ => True
  | Infof _ _ => False
  end.

(** The calls an event may be for [onlyCalls allowed] to hold of it; a log
    line is no call. *)
Definition onlyCalls (allowed : list DriverCall) (e : Event) : Prop :=
  match e with
  | Call c => In c allowed
  | Infof _ _ => True
  end.

(** Digits and letters of ASCII, by the code of the byte. *)
Definition isAlnum (c : ascii) : bool :=
  let n := N_of_ascii c in
  ((48 <=? n) && (n <=? 57) || (65 <=? n) && (n <=? 90)
   || (97 <=? n) && (n <=? 122))%N.

(** Digits, letters, the dash (45) and the dot (46). *)
Definition isHostNameByte (c : ascii) : bool :=
  isAlnum c || (N_of_ascii c =? 45)%N || (N_of_ascii c =? 46)%N.

(** A machine on which the privileged commands named in [failing] fail and
    the others succeed; its state is the list of the commands that took
    effect, latest first. *)
Module sampleFix.

Definition Machine : Type := list (list string).

Definition executable (_ : Machine) : res string := Ok "/usr/local/bin/crc".

Definition noExecutable (_ : Machine) : res string :=
  Err (errorString "readlink /proc/self/exe: no such file or directory").

Definition run (failing : list string) (_ : string) (cmdAndArgs : list string)
           (m : Machine) : (string * string * option error) * Machine :=
  if existsb (String.eqb (hd "" cmdAndArgs)) failing
  then (("", "permission denied", Some (errorString "exit status 1")), m)
  else (("", "", None), cmdAndArgs :: m).

End sampleFix.

(* ================================================================== *)
(** * Part II: theorems *)
(* ================================================================== *)

(** ** Host names *)

Section HostNames.

Import regexp.

Lemma matchAll_NoMatch (s : string) : matchAll NoMatch s = false.
Proof. induction s as [|c t IH]; simpl; auto. Qed.

Lemma matchAll_Star_class (cl : class) (s : string) :
  matchAll (Star (CharClass cl)) s = allIn cl s.
Proof.
  induction s as [|c t IH]; simpl; [reflexivity|].
  destruct (inClass c cl); simpl; [exact IH | apply matchAll_NoMatch].
Qed.

Lemma matchAll_first_rest (first rest : class) (s : string) :
  matchAll (Concat (CharClass first) (Star (CharClass rest))) s =
  match s with
  | EmptyString => false
  | String c t => inClass c first && allIn rest t
  end.
Proof.
  destruct s as [|c t]; simpl; [reflexivity|].
  destruct (inClass c first); simpl;
    [apply matchAll_Star_class | apply matchAll_NoMatch].
Qed.

Lemma allIn_ext (cl cl' : class) (s : string) :
  (forall c, inClass c cl = inClass c cl') -> allIn cl s = allIn cl' s.
Proof.
  intros E; induction s as [|c t IH]; simpl; [reflexivity|].
  now rewrite E, IH.
Qed.

Lemma first_class_agrees (c : ascii) :
  inClass c [Range "a" "z"; Range "A" "Z"; Range "0" "9"] =
  inClass c [Range "A" "Z"; Range "a" "z"; Range "0" "9"].
Proof.
  unfold inClass; cbn [existsb].
  destruct (inItem c (Range "a" "z")), (inItem c (Range "A" "Z")); reflexivity.
Qed.

Lemma rest_class_agrees (c : ascii) :
  inClass c [Range "a" "z"; Range "A" "Z"; Range "0" "9"; Lit "-"; Lit "."] =
  inClass c [Range "A" "Z"; Range "a" "z"; Range "0" "9"; Lit "."; Lit "-"].
Proof.
  unfold inClass; cbn [existsb].
  destruct (inItem c (Range "a" "z")), (inItem c (Range "A" "Z")),
    (inItem c (Range "0" "9")), (inItem c (Lit "-")), (inItem c (Lit "."));
    reflexivity.
Qed.

Lemma MatchString_first_rest (first rest : class) (s : string) :
  MatchString
    (mkRegexp true (Concat (CharClass first) (Star (CharClass rest))) true) s =
  match s with
  | EmptyString => false
  | String c t => inClass c first && allIn rest t
  end.
Proof.
  unfold MatchString, matchHere; cbn [beginText endText body].
  apply matchAll_first_rest.
Qed.

(** The validator accepts exactly the strings made of one letter or digit
    followed by letters, digits, dashes and dots. *)
Lemma ValidateHostName_bytes (name : string) :
  host.ValidateHostName name =
  match name with
  | EmptyString => false
  | String c t =>
      inClass c [Range "a" "z"; Range "A" "Z"; Range "0" "9"] &&
      allIn [Range "a" "z"; Range "A" "Z"; Range "0" "9"; Lit "-"; Lit "."] t
  end.
Proof. apply MatchString_first_rest. Qed.

(** C9: [ValidateHostName] returns whether its argument matches
    [^[A-Za-z0-9][A-Za-z0-9.-]*$]; it accepts "crc-1" and "a" and rejects
    "-crc", "crc_1" and the empty string. *)
Theorem ValidateHostName_matches_grammar :
  (forall name : string,
      host.ValidateHostName name = MatchString host.hostNameGrammar name) /\
  host.ValidateHostName "crc-1" = true /\
  host.ValidateHostName "a" = true /\
  host.ValidateHostName "-crc" = false /\
  host.ValidateHostName "crc_1" = false /\
  host.ValidateHostName "" = false.
Proof.
  split; [|repeat split; reflexivity].
  intros name. rewrite ValidateHostName_bytes.
  unfold host.hostNameGrammar. rewrite MatchString_first_rest.
  destruct name as [|c t]; [reflexivity|].
  rewrite first_class_agrees. f_equal.
  apply allIn_ext, rest_class_agrees.
Qed.

End HostNames.

(** ** The host lifecycle *)

Lemma state_eqb_eq (a b : state.State) : state.eqb a b = true <-> a = b.
Proof. destruct a, b; simpl; split; intros H; try reflexivity; discriminate. Qed.

Lemma state_eqb_neq (a b : state.State) : state.eqb a b = false <-> a <> b.
Proof.
  rewrite <- state_eqb_eq. destruct (state.eqb a b); split; intros H;
    try reflexivity; try discriminate; try congruence.
Qed.

Lemma bind_run {S A B} (m : M S A) (k : A -> M S B) (s : S) a s1 e1 :
  m s = (a, s1, e1) ->
  bind m k s = (result (k a s1), final (k a s1), e1 ++ events (k a s1)).
Proof.
  intros E. unfold bind. rewrite E.
  destruct (k a s1) as [[b s2] e2]. reflexivity.
Qed.

Lemma actionCalls_app (e1 e2 : list Event) :
  actionCalls (e1 ++ e2) = actionCalls e1 ++ actionCalls e2.
Proof.
  induction e1 as [|[c|f a] e1 IH]; simpl; auto.
  destruct (isAction c); simpl; congruence.
Qed.

Section HostLifecycle.

Variable W : Type.
Variable d : drivers.Driver W.
Variable maxAttempts : nat.
Variable typedErrorText : error -> string.
Variables engine_Options swarm_Options auth_Options : Type.

Local Abbreviation Host := (host.Host W engine_Options swarm_Options auth_Options).

Implicit Types (h : Host) (w : W) (s : state.State).

Lemma withDriver_same h : host.withDriver h (host.Driver h) = h.
Proof. destruct h; reflexivity. Qed.

Lemma sameFields_withDriver h w : host.sameFields h (host.withDriver h w).
Proof. repeat split. Qed.

(** Asking the driver whether it is in state [t]: one state query. *)
Lemma inState_run (t : state.State) h s w :
  drivers.GetState d (host.Driver h) = (s, w) ->
  host.onDriver (drivers.MachineInState d t) h =
  (state.eqb s t, host.withDriver h w, [Call CallGetState]).
Proof.
  intros E. unfold host.onDriver, drivers.MachineInState, bind, drivers.call, ret.
  rewrite E. reflexivity.
Qed.

Lemma action_run (c : DriverCall) (method : W -> option error * W) h err w :
  method (host.Driver h) = (err, w) ->
  host.onDriver (drivers.call c method) h = (err, host.withDriver h w, [Call c]).
Proof.
  intros E. unfold host.onDriver, drivers.call. rewrite E. reflexivity.
Qed.

Lemma log_run (format : string) h :
  host.log_Infof format h = (tt, h, [Infof format (host.Name h)]).
Proof. reflexivity. Qed.

(** The wait either sees the state within the budget and succeeds, or uses
    the whole budget and fails with the timeout; it only queries. *)
Lemma WaitFor_outcome (t : state.State) (n : nat) h :
  let r := mcnutils.WaitFor n (host.onDriver (drivers.MachineInState d t)) h in
  actionCalls (events r) = [] /\
  ((exists k w', 1 <= k <= n /\ host.Reached d t k (host.Driver h) w' /\
                 result r = None /\ final r = host.withDriver h w') \/
   (exists w', host.NotReached d t n (host.Driver h) w' /\
               result r = Some ErrTimeout /\ final r = host.withDriver h w')).
Proof.
  revert h. induction n as [|n IH]; intros h; cbn zeta.
  - split; [reflexivity|]. right. exists (host.Driver h).
    split; [constructor|]. split; [reflexivity|].
    simpl. symmetry. apply withDriver_same.
  - destruct (drivers.GetState d (host.Driver h)) as [s w0] eqn:E.
    cbn [mcnutils.WaitFor]. rewrite (bind_run _ _ _ _ _ _ (inState_run t h s w0 E)).
    destruct (state.eqb s t) eqn:Es.
    + apply state_eqb_eq in Es. subst s.
      split; [reflexivity|]. left. exists 1, w0.
      repeat split; try lia. constructor. exact E.
    + apply state_eqb_neq in Es.
      destruct (IH (host.withDriver h w0)) as [Hact Hout].
      unfold result, final, events in *. cbn [fst snd].
      split; [exact Hact|].
      destruct Hout as [(k & w' & Hk & Hr & Hres & Hfin) | (w' & Hn & Hres & Hfin)].
      * left. exists (S k), w'. repeat split; try lia.
        -- econstructor; eauto.
        -- exact Hres.
        -- exact Hfin.
      * right. exists w'. repeat split.
        -- econstructor; eauto.
        -- exact Hres.
        -- exact Hfin.
Qed.

(** The shared guard: the state query, then either the refusal or the
    action followed, when it succeeds, by the wait. *)
Lemma runActionForState_outcome (c : DriverCall)
      (method : W -> option error * W) (t : state.State) h cur w1 :
  drivers.GetState d (host.Driver h) = (cur, w1) ->
  let r := host.runActionForState d maxAttempts
             (host.onDriver (drivers.call c method)) t h in
  (cur = t ->
   result r = Some (ErrHostAlreadyInState (host.Name h) t) /\
   events r = [Call CallGetState] /\
   final r = host.withDriver h w1) /\
  (cur <> t ->
   forall err w2, method w1 = (err, w2) ->
     (exists evs, events r = Call CallGetState :: Call c :: evs /\
                  actionCalls evs = []) /\
     match err with
     | Some e => result r = Some e /\ final r = host.withDriver h w2
     | None =>
         (exists k w3, 1 <= k <= maxAttempts /\ host.Reached d t k w2 w3 /\
                       result r = None /\ final r = host.withDriver h w3) \/
         (exists w3, host.NotReached d t maxAttempts w2 w3 /\
                     result r = Some ErrTimeout /\ final r = host.withDriver h w3)
     end).
Proof.
  intros E. cbn zeta. unfold host.runActionForState.
  rewrite (bind_run _ _ _ _ _ _ (inState_run t h cur w1 E)).
  split.
  - intros ->. replace (state.eqb t t) with true
      by (symmetry; apply state_eqb_eq; reflexivity).
    repeat split.
  - intros Hne err w2 Em. apply state_eqb_neq in Hne. rewrite Hne.
    assert (Ea : host.onDriver (drivers.call c method) (host.withDriver h w1) =
                 (err, host.withDriver h w2, [Call c]))
      by (apply (action_run c method (host.withDriver h w1)); exact Em).
    rewrite (bind_run _ _ _ _ _ _ Ea).
    destruct err as [e|].
    + split; [exists []; split; reflexivity|]. split; reflexivity.
    + destruct (WaitFor_outcome t maxAttempts (host.withDriver h w2))
        as [Hact Hout].
      split; [eexists; split; [reflexivity | exact Hact]|].
      exact Hout.
Qed.

(** The log lines around an operation change neither its result, nor the
    host it leaves, nor the driver actions of the run. *)
Lemma logged_run (before after : string) (m : M Host (option error)) h :
  let r := (host.log_Infof before ;;
            err <- m ;;
            match err with
            | Some e => ret (Some e)
            | None => host.log_Infof after ;; ret None
            end) h in
  result r = result (m h) /\
  final r = final (m h) /\
  actionCalls (events r) = actionCalls (events (m h)).
Proof.
  cbn zeta. rewrite (bind_run _ _ _ _ _ _ (log_run before h)).
  destruct (m h) as [[[e|] h1] evs] eqn:Em;
    rewrite (bind_run _ _ _ _ _ _ Em); unfold result, final, events;
    cbn [fst snd ret host.log_Infof bind get emit];
    rewrite ?actionCalls_app; simpl; rewrite ?app_nil_r; auto.
Qed.

Lemma run_unfold (op : host.Lifecycle) :
  exists before after,
    @host.run W d maxAttempts engine_Options swarm_Options auth_Options op =
    (host.log_Infof before ;;
     err <- host.runActionForState d maxAttempts
              (host.onDriver (drivers.call (host.actionCall op)
                                           (host.driverAction d op)))
              (host.target op) ;;
     match err with
     | Some e => ret (Some e)
     | None => host.log_Infof after ;; ret None
     end).
Proof. destruct op; do 2 eexists; reflexivity. Qed.

(** C1: Start, Stop and Kill.  When the driver reports the target state the
    operation returns [ErrHostAlreadyInState] with the name of the host and
    the target, and no driver action is invoked.  When it reports another
    state the action of the operation is invoked exactly once; its error is
    returned unchanged; when it succeeds the driver is queried until it
    reports the target state (success) or the budget of the wait is used up
    (the timeout is the result of the operation). *)
Theorem lifecycle_guard_action_wait (op : host.Lifecycle) h cur w1 :
  drivers.GetState d (host.Driver h) = (cur, w1) ->
  let r := host.run d maxAttempts op h in
  (cur = host.target op ->
   result r = Some (ErrHostAlreadyInState (host.Name h) (host.target op)) /\
   actionCalls (events r) = [] /\
   final r = host.withDriver h w1) /\
  (cur <> host.target op ->
   forall err w2, host.driverAction d op w1 = (err, w2) ->
     actionCalls (events r) = [host.actionCall op] /\
     match err with
     | Some e => result r = Some e /\ final r = host.withDriver h w2
     | None =>
         (exists k w3, 1 <= k <= maxAttempts /\
                       host.Reached d (host.target op) k w2 w3 /\
                       result r = None /\ final r = host.withDriver h w3) \/
         (exists w3, host.NotReached d (host.target op) maxAttempts w2 w3 /\
                     result r = Some ErrTimeout /\
                     final r = host.withDriver h w3)
     end).
Proof.
  intros E. cbn zeta.
  destruct (run_unfold op) as (before & after & ->).
  destruct (logged_run before after
              (host.runActionForState d maxAttempts
                 (host.onDriver (drivers.call (host.actionCall op)
                                              (host.driverAction d op)))
                 (host.target op)) h) as (-> & -> & ->).
  destruct (runActionForState_outcome (host.actionCall op)
              (host.driverAction d op) (host.target op) h cur w1 E)
    as [Hsame Hother].
  split.
  - intros Ht. destruct (Hsame Ht) as (Hr & He & Hf).
    rewrite He. repeat split; assumption.
  - intros Hne err w2 Ea.
    destruct (Hother Hne err w2 Ea) as [(evs & He & Hact) Hres].
    split; [|exact Hres].
    rewrite He. simpl. rewrite Hact. destruct op; reflexivity.
Qed.

Lemma rewrap_run (m : M Host (option error)) h :
  (err <- m ;;
   match err with
   | Some e => ret (Some e)
   | None => ret None
   end) h = m h.
Proof.
  unfold bind, ret. destruct (m h) as [[[e|] h1] evs]; rewrite app_nil_r;
    reflexivity.
Qed.

(** C2: Restart.  When the driver reports Stopped the run is that of Start
    (same result, same host afterwards, same events after the log line and
    the state query of Restart).  When it reports Running the restart action
    is invoked exactly once, its error is returned, and on its success the
    driver is queried until it reports Running or the budget is used up,
    the timeout being the result.  When it reports another state nothing is
    done besides the two state queries and the result is success. *)
Theorem Restart_by_reported_state h s1 w1 s2 w2 :
  drivers.GetState d (host.Driver h) = (s1, w1) ->
  drivers.GetState d w1 = (s2, w2) ->
  let r := host.Restart d maxAttempts h in
  (s1 = state.Stopped ->
   let r0 := host.Start d maxAttempts (host.withDriver h w1) in
   result r = result r0 /\
   final r = final r0 /\
   events r =
     Infof "Restarting %q..." (host.Name h) :: Call CallGetState :: events r0 /\
   actionCalls (events r) = actionCalls (events r0)) /\
  (s1 <> state.Stopped -> s2 = state.Running ->
   forall err w3, drivers.Restart d w2 = (err, w3) ->
     actionCalls (events r) = [CallRestart] /\
     match err with
     | Some e => result r = Some e /\ final r = host.withDriver h w3
     | None =>
         (exists k w4, 1 <= k <= maxAttempts /\
                       host.Reached d state.Running k w3 w4 /\
                       result r = None /\ final r = host.withDriver h w4) \/
         (exists w4, host.NotReached d state.Running maxAttempts w3 w4 /\
                     result r = Some ErrTimeout /\
                     final r = host.withDriver h w4)
     end) /\
  (s1 <> state.Stopped -> s2 <> state.Running ->
   result r = None /\
   final r = host.withDriver h w2 /\
   events r = [Infof "Restarting %q..." (host.Name h);
               Call CallGetState; Call CallGetState] /\
   actionCalls (events r) = []).
Proof.
  intros E1 E2. cbn zeta. unfold host.Restart.
  rewrite (bind_run _ _ _ _ _ _ (log_run "Restarting %q..." h)).
  rewrite (bind_run _ _ _ _ _ _ (inState_run state.Stopped h s1 w1 E1)).
  split; [|split].
  - intros ->. cbn [state.eqb]. rewrite rewrap_run.
    unfold result, final, events; cbn [fst snd app]. repeat split.
  - intros Hne -> err w3 Ea. apply state_eqb_neq in Hne. rewrite Hne.
    rewrite (bind_run _ _ _ _ _ _
               (inState_run state.Running (host.withDriver h w1) _ w2 E2)).
    cbn [state.eqb].
    rewrite (bind_run _ _ _ _ _ _
               (action_run CallRestart (drivers.Restart d)
                           (host.withDriver h w2) err w3 Ea)).
    destruct err as [e|].
    + repeat split.
    + rewrite rewrap_run.
      change (host.withDriver (host.withDriver h w2) w3)
        with (host.withDriver h w3).
      destruct (WaitFor_outcome state.Running maxAttempts (host.withDriver h w3))
        as [Hact Hout].
      unfold result, final, events in *; cbn [fst snd app] in *.
      split; [|exact Hout].
      simpl. rewrite Hact. reflexivity.
  - intros Hne1 Hne2. apply state_eqb_neq in Hne1, Hne2. rewrite Hne1.
    rewrite (bind_run _ _ _ _ _ _
               (inState_run state.Running (host.withDriver h w1) _ w2 E2)).
    rewrite Hne2. repeat split.
Qed.

(** C4, amended: a failure of the reconfiguration call is replaced by
    [ErrNotImplemented] exactly when it is an [rpc.ServerError] (possibly
    wrapped) whose text is "Not Implemented"; every other failure is
    returned unchanged. *)
Theorem UpdateConfig_translates_rpc_sentinel (rawConfig : bytes) h e w1 :
  drivers.UpdateConfigRaw d rawConfig (host.Driver h) = (Some e, w1) ->
  let r := host.UpdateConfig d typedErrorText rawConfig h in
  (errorsAsServerError e = true ->
   host.Error typedErrorText e = "Not Implemented" ->
   result r = Some ErrNotImplemented) /\
  (errorsAsServerError e = false \/
   host.Error typedErrorText e <> "Not Implemented" ->
   result r = Some e).
Proof.
  intros E. cbn zeta. unfold host.UpdateConfig.
  rewrite (bind_run _ _ _ _ _ _
             (action_run (CallUpdateConfigRaw rawConfig)
                         (drivers.UpdateConfigRaw d rawConfig) h _ w1 E)).
  split.
  - intros -> ->. reflexivity.
  - intros [-> | Hne]; [reflexivity|].
    apply String.eqb_neq in Hne. rewrite Hne, andb_false_r. reflexivity.
Qed.

(** C5: after [UpdateConfig rawConfig] the stored raw configuration is
    [rawConfig] when the reconfiguration call of the driver succeeded, and
    is the one stored before when it failed. *)
Theorem UpdateConfig_atomic (rawConfig : bytes) h err w1 :
  drivers.UpdateConfigRaw d rawConfig (host.Driver h) = (err, w1) ->
  let r := host.UpdateConfig d typedErrorText rawConfig h in
  (err = None ->
   result r = None /\ host.RawDriver (final r) = rawConfig) /\
  (err <> None ->
   result r <> None /\ host.RawDriver (final r) = host.RawDriver h).
Proof.
  intros E. cbn zeta. unfold host.UpdateConfig.
  rewrite (bind_run _ _ _ _ _ _
             (action_run (CallUpdateConfigRaw rawConfig)
                         (drivers.UpdateConfigRaw d rawConfig) h _ w1 E)).
  split.
  - intros ->. split; reflexivity.
  - intros Hne. destruct err as [e|]; [|congruence].
    destruct (errorsAsServerError e && _)%bool; split; try reflexivity;
      discriminate.
Qed.

(** *** The fields of the host record *)

Lemma sameFields_refl h : host.sameFields h h.
Proof. repeat split. Qed.

Lemma sameFields_trans h h1 h2 :
  host.sameFields h h1 -> host.sameFields h1 h2 -> host.sameFields h h2.
Proof.
  unfold host.sameFields.
  intros (A1 & A2 & A3 & A4 & A5 & A6) (B1 & B2 & B3 & B4 & B5 & B6).
  repeat split; congruence.
Qed.

Lemma preserves_ret {A} (a : A) : host.preservesFields (ret a : M Host A).
Proof. intros h. apply sameFields_refl. Qed.

Lemma preserves_get : host.preservesFields (get : M Host Host).
Proof. intros h. apply sameFields_refl. Qed.

Lemma preserves_emit (e : Event) : host.preservesFields (emit e : M Host unit).
Proof. intros h. apply sameFields_refl. Qed.

Lemma preserves_bind {A B} (m : M Host A) (k : A -> M Host B) :
  host.preservesFields m -> (forall a, host.preservesFields (k a)) ->
  host.preservesFields (bind m k).
Proof.
  intros Hm Hk h. destruct (m h) as [[a h1] e1] eqn:Em.
  rewrite (bind_run _ _ _ _ _ _ Em). unfold final at 1; cbn [fst snd].
  apply sameFields_trans with h1.
  - specialize (Hm h). rewrite Em in Hm. exact Hm.
  - apply Hk.
Qed.

Lemma preserves_onDriver {A} (m : M W A) :
  host.preservesFields (host.onDriver m : M Host A).
Proof.
  intros h. unfold host.onDriver. destruct (m (host.Driver h)) as [[a w] evs].
  apply sameFields_withDriver.
Qed.

Lemma preserves_WaitFor (n : nat) (f : M Host bool) :
  host.preservesFields f -> host.preservesFields (mcnutils.WaitFor n f).
Proof.
  intros Hf. induction n as [|n IH]; cbn [mcnutils.WaitFor].
  - apply preserves_ret.
  - apply preserves_bind; [exact Hf|].
    intros [|]; [apply preserves_ret | exact IH].
Qed.

Ltac frame :=
  repeat first
    [ apply preserves_ret
    | apply preserves_get
    | apply preserves_emit
    | apply preserves_onDriver
    | apply preserves_WaitFor
    | apply preserves_bind; [|intros ?]
    | assumption
    | match goal with
      | |- host.preservesFields (if ?b then _ else _) => destruct b
      | |- host.preservesFields (match ?x with Some _ => _ | None => _ end) =>
          destruct x
      end ].

Lemma preserves_log (format : string) :
  host.preservesFields (host.log_Infof format : M Host unit).
Proof. unfold host.log_Infof. frame. Qed.

Lemma preserves_runActionForState (action : M Host (option error))
      (t : state.State) :
  host.preservesFields action ->
  host.preservesFields (host.runActionForState d maxAttempts action t).
Proof. intros Ha. unfold host.runActionForState. frame. Qed.

Lemma preserves_Start : host.preservesFields (host.Start d maxAttempts : M Host _).
Proof.
  unfold host.Start.
  repeat first [apply preserves_log | apply preserves_runActionForState | frame].
Qed.

Lemma preserves_Stop : host.preservesFields (host.Stop d maxAttempts : M Host _).
Proof.
  unfold host.Stop.
  repeat first [apply preserves_log | apply preserves_runActionForState | frame].
Qed.

Lemma preserves_Kill : host.preservesFields (host.Kill d maxAttempts : M Host _).
Proof.
  unfold host.Kill.
  repeat first [apply preserves_log | apply preserves_runActionForState | frame].
Qed.

Lemma preserves_Restart :
  host.preservesFields (host.Restart d maxAttempts : M Host _).
Proof.
  unfold host.Restart.
  repeat first [apply preserves_log | apply preserves_Start | frame].
Qed.

Lemma preserves_URL : host.preservesFields (host.URL d : M Host _).
Proof. unfold host.URL. frame. Qed.

(** C6: Start, Stop, Kill, Restart and URL leave ConfigVersion, DriverName,
    DriverPath, HostOptions, Name and RawDriver as they were, whatever the
    outcome; a run of UpdateConfig that changes RawDriver is a successful
    one and stores its argument. *)
Theorem only_UpdateConfig_writes_host h :
  host.sameFields h (final (host.Start d maxAttempts h)) /\
  host.sameFields h (final (host.Stop d maxAttempts h)) /\
  host.sameFields h (final (host.Kill d maxAttempts h)) /\
  host.sameFields h (final (host.Restart d maxAttempts h)) /\
  host.sameFields h (final (host.URL d h)) /\
  (forall rawConfig : bytes,
      let r := host.UpdateConfig d typedErrorText rawConfig h in
      host.RawDriver (final r) <> host.RawDriver h ->
      result r = None /\ host.RawDriver (final r) = rawConfig).
Proof.
  split; [apply preserves_Start|].
  split; [apply preserves_Stop|].
  split; [apply preserves_Kill|].
  split; [apply preserves_Restart|].
  split; [apply preserves_URL|].
  intros rawConfig. cbn zeta. unfold host.UpdateConfig.
  destruct (drivers.UpdateConfigRaw d rawConfig (host.Driver h)) as [err w1] eqn:E.
  rewrite (bind_run _ _ _ _ _ _
             (action_run (CallUpdateConfigRaw rawConfig)
                         (drivers.UpdateConfigRaw d rawConfig) h _ w1 E)).
  destruct err as [e|].
  - destruct (errorsAsServerError e && _)%bool; intros Hne;
      exfalso; apply Hne; reflexivity.
  - intros _. split; reflexivity.
Qed.

End HostLifecycle.

(** *** The theorems on the simulated backend *)

Lemma lifecycle_guard_action_wait_witness :
  result (host.run (sample.driver None) 5 host.OpStart
                   (sample.crc sample.runningVM)) =
    Some (ErrHostAlreadyInState "crc" state.Running) /\
  actionCalls (events (host.run (sample.driver None) 5 host.OpStop
                                (sample.crc sample.runningVM))) = [CallStop].
Proof.
  split.
  - destruct (lifecycle_guard_action_wait
                sample.VM (sample.driver None) 5 unit unit unit host.OpStart
                (sample.crc sample.runningVM) state.Running sample.runningVM
                eq_refl) as [Hsame _].
    destruct (Hsame eq_refl) as (Hres & _). exact Hres.
  - destruct (lifecycle_guard_action_wait
                sample.VM (sample.driver None) 5 unit unit unit host.OpStop
                (sample.crc sample.runningVM) state.Running sample.runningVM
                eq_refl) as [_ Hother].
    assert (Hne : state.Running <> host.target host.OpStop) by discriminate.
    destruct (Hother Hne None (sample.mkVM state.Stopping 1 state.Stopped) eq_refl)
      as (Hact & _).
    exact Hact.
Defined.

Lemma Restart_by_reported_state_witness :
  result (host.Restart (sample.driver None) 5 (sample.crc sample.pausedVM)) = None /\
  events (host.Restart (sample.driver None) 5 (sample.crc sample.pausedVM)) =
    [Infof "Restarting %q..." "crc"; Call CallGetState; Call CallGetState] /\
  actionCalls (events (host.Restart (sample.driver None) 5
                                    (sample.crc sample.runningVM))) = [CallRestart].
Proof.
  destruct (Restart_by_reported_state
              sample.VM (sample.driver None) 5 unit unit unit
              (sample.crc sample.pausedVM)
              state.Paused sample.pausedVM state.Paused sample.pausedVM
              eq_refl eq_refl) as (_ & _ & Hother).
  assert (H1 : state.Paused <> state.Stopped) by discriminate.
  assert (H2 : state.Paused <> state.Running) by discriminate.
  destruct (Hother H1 H2) as (Hres & _ & Hev & _).
  destruct (Restart_by_reported_state
              sample.VM (sample.driver None) 5 unit unit unit
              (sample.crc sample.runningVM)
              state.Running sample.runningVM state.Running sample.runningVM
              eq_refl eq_refl) as (_ & Hrunning & _).
  assert (H3 : state.Running <> state.Stopped) by discriminate.
  destruct (Hrunning H3 eq_refl None (sample.mkVM state.Starting 1 state.Running)
                     eq_refl) as (Hact & _).
  repeat split; assumption.
Defined.

(** C4 as stated fails: a failure that is not an [rpc.ServerError] and whose
    text is "Not Implemented" is returned as it is, not as
    [ErrNotImplemented]. *)
Lemma UpdateConfig_plain_error_not_translated :
  drivers.UpdateConfigRaw
    (sample.driver (Some (errorString "Not Implemented"))) [Byte.x7b; Byte.x7d]
    sample.runningVM
  = (Some (errorString "Not Implemented"), sample.runningVM) /\
  host.Error sample.noText (errorString "Not Implemented") = "Not Implemented" /\
  result (host.UpdateConfig
            (sample.driver (Some (errorString "Not Implemented")))
            sample.noText [Byte.x7b; Byte.x7d] (sample.crc sample.runningVM))
  = Some (errorString "Not Implemented") /\
  result (host.UpdateConfig
            (sample.driver (Some (errorString "Not Implemented")))
            sample.noText [Byte.x7b; Byte.x7d] (sample.crc sample.runningVM))
  <> Some ErrNotImplemented.
Proof. repeat split; try reflexivity; discriminate. Qed.

Lemma UpdateConfig_translates_rpc_sentinel_witness :
  result (host.UpdateConfig
            (sample.driver (Some (ServerError "Not Implemented")))
            sample.noText [Byte.x7b; Byte.x7d] (sample.crc sample.runningVM))
  = Some ErrNotImplemented /\
  result (host.UpdateConfig
            (sample.driver (Some (ServerError "connection is shut down")))
            sample.noText [Byte.x7b; Byte.x7d] (sample.crc sample.runningVM))
  = Some (ServerError "connection is shut down").
Proof.
  split.
  - destruct (UpdateConfig_translates_rpc_sentinel
                sample.VM (sample.driver (Some (ServerError "Not Implemented")))
                sample.noText unit unit unit [Byte.x7b; Byte.x7d]
                (sample.crc sample.runningVM) (ServerError "Not Implemented")
                sample.runningVM eq_refl) as [Hyes _].
    exact (Hyes eq_refl eq_refl).
  - destruct (UpdateConfig_translates_rpc_sentinel
                sample.VM
                (sample.driver (Some (ServerError "connection is shut down")))
                sample.noText unit unit unit [Byte.x7b; Byte.x7d]
                (sample.crc sample.runningVM)
                (ServerError "connection is shut down")
                sample.runningVM eq_refl) as [_ Hno].
    apply Hno. right. discriminate.
Defined.

Lemma UpdateConfig_atomic_witness :
  host.RawDriver
    (final (host.UpdateConfig (sample.driver None) sample.noText [Byte.x01]
                              (sample.crc sample.runningVM))) = [Byte.x01] /\
  host.RawDriver
    (final (host.UpdateConfig sample.brokenDriver sample.noText [Byte.x01]
                              (sample.crc sample.runningVM))) = [Byte.x7b; Byte.x7d].
Proof.
  split.
  - destruct (UpdateConfig_atomic
                sample.VM (sample.driver None) sample.noText unit unit unit
                [Byte.x01] (sample.crc sample.runningVM) None sample.runningVM
                eq_refl) as [Hok _].
    destruct (Hok eq_refl) as [_ Hraw]. exact Hraw.
  - destruct (UpdateConfig_atomic
                sample.VM sample.brokenDriver sample.noText unit unit unit
                [Byte.x01] (sample.crc sample.runningVM)
                (Some (errorString "no hypervisor")) sample.runningVM
                eq_refl) as [_ Hfail].
    assert (Hne : Some (errorString "no hypervisor") <> None) by discriminate.
    destruct (Hfail Hne) as [_ Hraw]. exact Hraw.
Defined.

Example Start_settles_within_budget :
  host.Start (sample.driver None) 3 (sample.crc sample.stoppedVM) =
  (None, sample.crc sample.runningVM,
   [Infof "Starting %q..." "crc"; Call CallGetState; Call CallStart;
    Call CallGetState; Call CallGetState; Call CallGetState;
    Infof "Machine %q was started." "crc"]).
Proof. reflexivity. Qed.

Example Start_times_out :
  result (host.Start (sample.driver None) 2 (sample.crc sample.stoppedVM)) =
  Some ErrTimeout.
Proof. reflexivity. Qed.

(** ** The preflight registry *)

Section RegistryProperties.

Variable network_Mode : Type.
Variable network_Mode_eq_dec : forall a b : network_Mode, {a = b} + {a <> b}.
Variables DefaultMode VSockMode : network_Mode.
Variables Ubuntu RHEL CentOS Fedora : preflight.OsType.
Variables SetupOnly CleanUpOnly : Z.
Variables genericPreflightChecks nonWinPreflightChecks redhatPreflightChecks
  : list preflight.Check.

Local Abbreviation vsock := preflight.vsockPreflightChecks.
Local Abbreviation libvirtPreflightChecks :=
  (preflight.libvirtPreflightChecks SetupOnly CleanUpOnly).
Local Abbreviation getPreflightChecksForDistro :=
  (preflight.getPreflightChecksForDistro
     network_Mode network_Mode_eq_dec DefaultMode VSockMode
     Ubuntu RHEL CentOS Fedora SetupOnly CleanUpOnly
     genericPreflightChecks nonWinPreflightChecks redhatPreflightChecks).
Local Abbreviation getAllPreflightChecks :=
  (preflight.getAllPreflightChecks
     network_Mode network_Mode_eq_dec DefaultMode VSockMode
     Ubuntu RHEL CentOS Fedora SetupOnly CleanUpOnly
     genericPreflightChecks nonWinPreflightChecks redhatPreflightChecks).
Local Abbreviation getPreflightChecks :=
  (preflight.getPreflightChecks
     network_Mode network_Mode_eq_dec DefaultMode VSockMode
     Ubuntu RHEL CentOS Fedora SetupOnly CleanUpOnly
     genericPreflightChecks nonWinPreflightChecks redhatPreflightChecks).

Local Abbreviation othersHaveNoVsock :=
  (preflight.othersHaveNoVsock
     genericPreflightChecks nonWinPreflightChecks redhatPreflightChecks).

Lemma occurrences_app (c : preflight.Check) (l1 l2 : list preflight.Check) :
  preflight.occurrences c (l1 ++ l2) =
  preflight.occurrences c l1 + preflight.occurrences c l2.
Proof. apply count_occ_app. Qed.

Lemma occurrences_vsock_single : preflight.occurrences vsock [vsock] = 1.
Proof.
  unfold preflight.occurrences. simpl.
  destruct (preflight.Check_eq_dec vsock vsock); [reflexivity | congruence].
Qed.

Lemma libvirt_has_no_vsock : preflight.occurrences vsock libvirtPreflightChecks = 0.
Proof.
  apply count_occ_not_In. unfold preflight.libvirtPreflightChecks.
  intros H. simpl in H.
  repeat (destruct H as [H|H]; [discriminate H|]). exact H.
Qed.

Lemma commonChecks_eq :
  preflight.commonChecks SetupOnly CleanUpOnly
                         genericPreflightChecks nonWinPreflightChecks =
  genericPreflightChecks ++ nonWinPreflightChecks ++ libvirtPreflightChecks.
Proof. unfold preflight.commonChecks. simpl. now rewrite <- app_assoc. Qed.

(** The list built for a distribution and a mode, in closed form. *)
Lemma getPreflightChecksForDistro_eq (distro : preflight.OsType)
      (networkMode : network_Mode) :
  getPreflightChecksForDistro distro networkMode =
  (genericPreflightChecks ++ nonWinPreflightChecks ++ libvirtPreflightChecks ++
   (if network_Mode_eq_dec networkMode VSockMode then [vsock] else []) ++
   (if String.eqb distro Ubuntu then []
    else if network_Mode_eq_dec networkMode DefaultMode
         then redhatPreflightChecks else []),
   if String.eqb distro Ubuntu || String.eqb distro RHEL
      || String.eqb distro CentOS || String.eqb distro Fedora
   then []
   else [preflight.Warnf
           "distribution-specific preflight checks are not implemented for %s"
           (preflight.ArgOsType distro)]).
Proof.
  unfold preflight.getPreflightChecksForDistro. rewrite commonChecks_eq.
  destruct (String.eqb distro Ubuntu), (String.eqb distro RHEL),
    (String.eqb distro CentOS), (String.eqb distro Fedora),
    (network_Mode_eq_dec networkMode VSockMode),
    (network_Mode_eq_dec networkMode DefaultMode);
    cbn [orb]; rewrite <- ?app_assoc, ?app_nil_r; reflexivity.
Qed.

Lemma occurrences_vsock_built (distro : preflight.OsType)
      (networkMode : network_Mode) :
  othersHaveNoVsock ->
  preflight.occurrences vsock (fst (getPreflightChecksForDistro distro networkMode)) =
  if network_Mode_eq_dec networkMode VSockMode then 1 else 0.
Proof.
  intros (Hg & Hn & Hr). rewrite getPreflightChecksForDistro_eq. cbn [fst].
  rewrite !occurrences_app, Hg, Hn, libvirt_has_no_vsock.
  assert (Hbranch :
            preflight.occurrences vsock
              (if String.eqb distro Ubuntu then []
               else if network_Mode_eq_dec networkMode DefaultMode
                    then redhatPreflightChecks else []) = 0).
  { destruct (String.eqb distro Ubuntu); [reflexivity|].
    destruct (network_Mode_eq_dec networkMode DefaultMode); [exact Hr | reflexivity]. }
  rewrite Hbranch.
  destruct (network_Mode_eq_dec networkMode VSockMode);
    [rewrite occurrences_vsock_single; reflexivity | reflexivity].
Qed.

(** C3: the list built for a distribution and a mode is the generic table,
    the non-Windows table, the libvirt table, the vsock check exactly in
    vsock mode, and then: nothing for Ubuntu; the Red Hat table in the
    default mode for RHEL, CentOS and Fedora; for any other distribution a
    warning, and the Red Hat table in the default mode.  In vsock mode the
    list holds the vsock check exactly once, whatever the distribution,
    the tables of the other files holding none. *)
Theorem registry_builder_composition (distro : preflight.OsType)
        (networkMode : network_Mode) :
  let common :=
    genericPreflightChecks ++ nonWinPreflightChecks ++ libvirtPreflightChecks ++
    (if network_Mode_eq_dec networkMode VSockMode then [vsock] else []) in
  let redhat :=
    if network_Mode_eq_dec networkMode DefaultMode
    then redhatPreflightChecks else [] in
  (distro = Ubuntu ->
   getPreflightChecksForDistro distro networkMode = (common, [])) /\
  (distro <> Ubuntu -> distro = RHEL \/ distro = CentOS \/ distro = Fedora ->
   getPreflightChecksForDistro distro networkMode = (common ++ redhat, [])) /\
  (distro <> Ubuntu -> distro <> RHEL -> distro <> CentOS -> distro <> Fedora ->
   getPreflightChecksForDistro distro networkMode =
   (common ++ redhat,
    [preflight.Warnf
       "distribution-specific preflight checks are not implemented for %s"
       (preflight.ArgOsType distro)])) /\
  (networkMode = VSockMode -> othersHaveNoVsock ->
   preflight.occurrences vsock
     (fst (getPreflightChecksForDistro distro networkMode)) = 1).
Proof.
  cbn zeta. rewrite getPreflightChecksForDistro_eq.
  split; [|split; [|split]].
  - intros ->. rewrite String.eqb_refl. cbn [orb].
    rewrite app_nil_r. reflexivity.
  - intros Hu Hr. apply String.eqb_neq in Hu. rewrite Hu.
    rewrite <- !app_assoc.
    destruct Hr as [-> | [-> | ->]]; rewrite String.eqb_refl;
      rewrite ?orb_true_r; reflexivity.
  - intros Hu Hr Hc Hf.
    apply String.eqb_neq in Hu, Hr, Hc, Hf. rewrite Hu, Hr, Hc, Hf.
    rewrite <- !app_assoc. reflexivity.
  - intros -> Hno. rewrite <- getPreflightChecksForDistro_eq.
    rewrite (occurrences_vsock_built distro VSockMode Hno).
    destruct (network_Mode_eq_dec VSockMode VSockMode); [reflexivity | congruence].
Qed.

(** C8: the list of all checks is the list built for the detected
    distribution in the default mode with the vsock check appended; the
    default mode not being the vsock mode and the tables of the other files
    holding no vsock check, it holds the vsock check exactly once, and holds
    every check of the default list and one that the default list lacks. *)
Theorem all_checks_extend_default (os : preflight.OS) (b : bool) :
  let all := fst (getAllPreflightChecks os) in
  let default := fst (getPreflightChecks os b DefaultMode) in
  all = default ++ [vsock] /\
  all = fst (getPreflightChecksForDistro (fst (preflight.distro os)) DefaultMode)
        ++ [vsock] /\
  (DefaultMode <> VSockMode -> othersHaveNoVsock ->
   preflight.occurrences vsock all = 1 /\
   incl default all /\
   In vsock all /\
   ~ In vsock default).
Proof.
  cbn zeta.
  unfold preflight.getAllPreflightChecks, preflight.getPreflightChecks.
  destruct (preflight.distro os) as [id log1]. cbn [fst].
  destruct (getPreflightChecksForDistro id DefaultMode) as [checks log2] eqn:E.
  cbn [fst]. split; [reflexivity|]. split; [reflexivity|].
  intros Hmode Hno.
  assert (H0 : preflight.occurrences vsock checks = 0).
  { pose proof (occurrences_vsock_built id DefaultMode Hno) as H.
    rewrite E in H. cbn [fst] in H.
    destruct (network_Mode_eq_dec DefaultMode VSockMode); [contradiction | exact H]. }
  repeat split.
  - rewrite occurrences_app, H0, occurrences_vsock_single. reflexivity.
  - apply incl_appl, incl_refl.
  - apply in_or_app. right. left. reflexivity.
  - apply (count_occ_not_In preflight.Check_eq_dec). exact H0.
Qed.

(** C10: the boolean parameter of [getPreflightChecks] has no effect on
    its result. *)
Theorem getPreflightChecks_ignores_flag (os : preflight.OS) (b1 b2 : bool)
        (networkMode : network_Mode) :
  getPreflightChecks os b1 networkMode = getPreflightChecks os b2 networkMode.
Proof. reflexivity. Qed.

End RegistryProperties.

Lemma registry_builder_composition_witness :
  sample.getPreflightChecksForDistro "arch-unknown-xyz" sample.Default =
  (sample.generic ++ sample.nonWin ++ preflight.libvirtPreflightChecks 1 4 ++ []
   ++ sample.redhat,
   [preflight.Warnf
      "distribution-specific preflight checks are not implemented for %s"
      (preflight.ArgOsType "arch-unknown-xyz")]) /\
  preflight.occurrences preflight.vsockPreflightChecks
    (fst (sample.getPreflightChecksForDistro "ubuntu" sample.VSock)) = 1.
Proof.
  destruct (registry_builder_composition
              sample.Mode sample.Mode_eq_dec sample.Default sample.VSock
              "ubuntu" "rhel" "centos" "fedora" 1%Z 4%Z
              sample.generic sample.nonWin sample.redhat
              "arch-unknown-xyz" sample.Default) as (_ & _ & Hunknown & _).
  destruct (registry_builder_composition
              sample.Mode sample.Mode_eq_dec sample.Default sample.VSock
              "ubuntu" "rhel" "centos" "fedora" 1%Z 4%Z
              sample.generic sample.nonWin sample.redhat
              "ubuntu" sample.VSock) as (_ & _ & _ & Hvsock).
  unfold sample.getPreflightChecksForDistro. split.
  - rewrite Hunknown by discriminate. reflexivity.
  - apply Hvsock; [reflexivity | repeat split].
Defined.

Lemma all_checks_extend_default_witness :
  fst (sample.getAllPreflightChecks (sample.linuxBox (sample.charDevice 432))) =
  fst (sample.getPreflightChecksForDistro "fedora" sample.Default)
  ++ [preflight.vsockPreflightChecks] /\
  preflight.occurrences preflight.vsockPreflightChecks
    (fst (sample.getAllPreflightChecks (sample.linuxBox (sample.charDevice 432)))) = 1.
Proof.
  destruct (all_checks_extend_default
              sample.Mode sample.Mode_eq_dec sample.Default sample.VSock
              "ubuntu" "rhel" "centos" "fedora" 1%Z 4%Z
              sample.generic sample.nonWin sample.redhat
              (sample.linuxBox (sample.charDevice 432)) true)
    as (_ & Hall & Hone).
  split; [exact Hall|].
  assert (Hmode : sample.Default <> sample.VSock) by discriminate.
  assert (Hno : preflight.othersHaveNoVsock sample.generic sample.nonWin sample.redhat)
    by (repeat split).
  destruct (Hone Hmode Hno) as (Hocc & _). exact Hocc.
Defined.

(** ** The vsock check *)

(** X9: what [checkVsock] accepts: the executable is found, [getcap] runs and its
    output contains the capability, the device node is found and its owner
    is known, the group of the device is [libvirt], and at least one of the
    group read and group write bits of the device is set. *)
Lemma checkVsock_succeeds_iff (os : preflight.OS) :
  preflight.checkVsock os = None <->
  exists executable getcap stderr info stat group,
    preflight.os_Executable os = Ok executable /\
    preflight.crcos_RunWithDefaultLocale os "getcap" [executable] =
      (getcap, stderr, None) /\
    Contains getcap "cap_net_bind_service+eip" = true /\
    preflight.os_Stat os "/dev/vsock" = Ok info /\
    preflight.Sys info = Some stat /\
    preflight.user_LookupGroupId os (Sprint (preflight.Gid stat)) = Ok group /\
    preflight.Name group = "libvirt" /\
    Z.land (preflight.Mode info) 48 <> 0%Z.
Proof.
  unfold preflight.checkVsock. split.
  - destruct (preflight.os_Executable os) as [executable|] eqn:Ee; [|discriminate].
    destruct (preflight.crcos_RunWithDefaultLocale os "getcap" [executable])
      as [[getcap stderr] [err|]] eqn:Er; [discriminate|].
    destruct (Contains getcap "cap_net_bind_service+eip") eqn:Ec;
      cbn [negb]; [|discriminate].
    destruct (preflight.os_Stat os "/dev/vsock") as [info|] eqn:Es; [|discriminate].
    destruct (preflight.Sys info) as [stat|] eqn:Ey; [|discriminate].
    destruct (preflight.user_LookupGroupId os (Sprint (preflight.Gid stat)))
      as [group|] eqn:Eg; [|discriminate].
    destruct (String.eqb (preflight.Name group) "libvirt") eqn:En;
      cbn [negb]; [|discriminate].
    destruct (Z.land (preflight.Mode info) 48 =? 0)%Z eqn:Em; [discriminate|].
    intros _. exists executable, getcap, stderr, info, stat, group.
    apply String.eqb_eq in En. apply Z.eqb_neq in Em. repeat split; assumption.
  - intros (executable & getcap & stderr & info & stat & group &
            Ee & Er & Ec & Es & Ey & Eg & En & Em).
    rewrite Ee, Er, Ec, Es, Ey, Eg, En, String.eqb_refl. cbn [negb].
    apply Z.eqb_neq in Em. rewrite Em. reflexivity.
Qed.

(** C7, the divergence: the check succeeds on a device node of mode 0640,
    group [libvirt], whose group may read and may not write. *)
Theorem checkVsock_accepts_group_read_only :
  preflight.checkVsock (sample.linuxBox (sample.charDevice 416 (* 0640 *))) = None /\
  Z.testbit (sample.charDevice 416) 5 (* 0040, group read *) = true /\
  Z.testbit (sample.charDevice 416) 4 (* 0020, group write *) = false.
Proof. repeat split. Qed.

Example checkVsock_accepts_group_read_write :
  preflight.checkVsock (sample.linuxBox (sample.charDevice 432 (* 0660 *))) = None.
Proof. reflexivity. Qed.

Example checkVsock_rejects_no_group_access :
  preflight.checkVsock (sample.linuxBox (sample.charDevice 384 (* 0600 *))) =
  Some (errorString "/dev/vsock doesn't have the right permissions").
Proof. reflexivity. Qed.

(* ================================================================== *)
(** * Part III: further properties of the code *)
(* ================================================================== *)

(** ** Host names, byte by byte *)

Lemma first_class_isAlnum (c : ascii) :
  regexp.inClass c [regexp.Range "a" "z"; regexp.Range "A" "Z"; regexp.Range "0" "9"] =
  isAlnum c.
Proof. destruct c as [[] [] [] [] [] [] [] []]; reflexivity. Qed.

Lemma rest_class_isHostNameByte (c : ascii) :
  regexp.inClass c [regexp.Range "a" "z"; regexp.Range "A" "Z";
                    regexp.Range "0" "9"; regexp.Lit "-"; regexp.Lit "."] =
  isHostNameByte c.
Proof. destruct c as [[] [] [] [] [] [] [] []]; reflexivity. Qed.

Lemma allIn_forallb (cl : regexp.class) (p : ascii -> bool) (s : string) :
  (forall c, regexp.inClass c cl = p c) ->
  regexp.allIn cl s = forallb p (list_ascii_of_string s).
Proof.
  intros E. induction s as [|c t IH]; simpl; [reflexivity|].
  now rewrite E, IH.
Qed.

Lemma ValidateHostName_forallb (name : string) :
  host.ValidateHostName name =
  match name with
  | EmptyString => false
  | String c t => isAlnum c && forallb isHostNameByte (list_ascii_of_string t)
  end.
Proof.
  rewrite ValidateHostName_bytes. destruct name as [|c t]; [reflexivity|].
  rewrite first_class_isAlnum.
  rewrite (allIn_forallb _ isHostNameByte t rest_class_isHostNameByte).
  reflexivity.
Qed.

Lemma list_ascii_of_string_app (a b : string) :
  list_ascii_of_string (a ++ b)%string =
  list_ascii_of_string a ++ list_ascii_of_string b.
Proof. induction a as [|c t IH]; simpl; [reflexivity | now rewrite IH]. Qed.

Lemma isAlnum_isHostNameByte (c : ascii) :
  isAlnum c = true -> isHostNameByte c = true.
Proof. unfold isHostNameByte. intros ->. reflexivity. Qed.

(** X1: a name is valid exactly when it is not empty, its first byte is a
    digit or a letter of ASCII, and every other byte is a digit, a letter, a
    dash or a dot. *)
Theorem ValidateHostName_iff_bytes (name : string) :
  host.ValidateHostName name = true <->
  exists c t,
    name = String c t /\
    isAlnum c = true /\
    Forall (fun b => isHostNameByte b = true) (list_ascii_of_string t).
Proof.
  rewrite ValidateHostName_forallb. split.
  - destruct name as [|c t]; [discriminate|].
    intros H. apply andb_true_iff in H. destruct H as [Hc Ht].
    exists c, t. repeat split; [exact Hc|].
    apply Forall_forall. apply forallb_forall. exact Ht.
  - intros (c & t & -> & Hc & Ht). rewrite Hc. simpl.
    apply forallb_forall. apply Forall_forall. exact Ht.
Qed.

(** X2: a name holding, at any place, a byte that is neither a digit, a
    letter, a dash nor a dot is not valid; a newline at the end is such a
    byte. *)
Theorem ValidateHostName_rejects_foreign_byte (a b : string) (c : ascii) :
  isHostNameByte c = false ->
  host.ValidateHostName (a ++ String c b)%string = false.
Proof.
  intros Hc. rewrite ValidateHostName_forallb.
  destruct a as [|a0 a']; simpl.
  - destruct (isAlnum c) eqn:Ha; [|reflexivity].
    apply isAlnum_isHostNameByte in Ha. congruence.
  - rewrite list_ascii_of_string_app, forallb_app. simpl. rewrite Hc.
    rewrite andb_false_r, andb_false_r. reflexivity.
Qed.

Lemma ValidateHostName_rejects_foreign_byte_witness :
  host.ValidateHostName ("crc" ++ String "010" "")%string = false /\
  host.ValidateHostName "my/crc" = false.
Proof.
  split.
  - apply (ValidateHostName_rejects_foreign_byte "crc" "" "010"). reflexivity.
  - apply (ValidateHostName_rejects_foreign_byte "my" "crc" "/"). reflexivity.
Defined.

(** X3: a name that is not empty stays valid, or not valid, when bytes are
    appended that are all digits, letters, dashes or dots; with any other
    byte appended it is not valid. *)
Theorem ValidateHostName_app (a b : string) :
  a <> EmptyString ->
  host.ValidateHostName (a ++ b)%string =
  host.ValidateHostName a && forallb isHostNameByte (list_ascii_of_string b).
Proof.
  intros Ha. rewrite !ValidateHostName_forallb.
  destruct a as [|c t]; [congruence|]. simpl.
  rewrite list_ascii_of_string_app, forallb_app, andb_assoc. reflexivity.
Qed.

Lemma ValidateHostName_app_witness :
  host.ValidateHostName ("crc" ++ "-1.testing")%string = true.
Proof.
  rewrite (ValidateHostName_app "crc" "-1.testing"); [reflexivity | discriminate].
Defined.

(** ** What the operations of a host call and log *)

Section HostEvents.

Variable W : Type.
Variable d : drivers.Driver W.
Variable maxAttempts : nat.
Variable typedErrorText : error -> string.
Variables engine_Options swarm_Options auth_Options : Type.

Local Abbreviation Host := (host.Host W engine_Options swarm_Options auth_Options).

Implicit Types (h : Host) (P : Event -> Prop).

Lemma only_ret {A} P (a : A) h : Forall P (events ((ret a : M Host A) h)).
Proof. constructor. Qed.

Lemma only_bind {A B} P (m : M Host A) (k : A -> M Host B) :
  (forall h, Forall P (events (m h))) ->
  (forall a h, Forall P (events (k a h))) ->
  forall h, Forall P (events (bind m k h)).
Proof.
  intros Hm Hk h. destruct (m h) as [[a h1] e1] eqn:Em.
  rewrite (bind_run _ _ _ _ _ _ Em). unfold events at 1; cbn [snd].
  apply Forall_app. split; [|apply Hk].
  specialize (Hm h). rewrite Em in Hm. exact Hm.
Qed.

Lemma only_call {A} P (c : DriverCall) (method : W -> A * W) :
  P (Call c) ->
  forall h, Forall P (events ((host.onDriver (drivers.call c method) : M Host A) h)).
Proof.
  intros Hc h. unfold host.onDriver, drivers.call.
  destruct (method (host.Driver h)) as [a w]. repeat constructor. exact Hc.
Qed.

Lemma only_inState P (t : state.State) :
  P (Call CallGetState) ->
  forall h, Forall P (events ((host.onDriver (drivers.MachineInState d t)
                               : M Host bool) h)).
Proof.
  intros Hc h. destruct (drivers.GetState d (host.Driver h)) as [s w] eqn:E.
  rewrite (inState_run W d _ _ _ t h s w E). repeat constructor. exact Hc.
Qed.

Lemma only_WaitFor P (n : nat) (f : M Host bool) :
  (forall h, Forall P (events (f h))) ->
  forall h, Forall P (events (mcnutils.WaitFor n f h)).
Proof.
  intros Hf. induction n as [|n IH]; cbn [mcnutils.WaitFor].
  - intros h. apply only_ret.
  - apply only_bind; [exact Hf|].
    intros [|] h; [apply only_ret | apply IH].
Qed.

Lemma only_log P (format : string) :
  (forall f a, P (Infof f a)) ->
  forall h, Forall P (events ((host.log_Infof format : M Host unit) h)).
Proof. intros Hl h. repeat constructor. apply Hl. Qed.

Lemma only_runActionForState P (c : DriverCall) (method : W -> option error * W)
      (t : state.State) :
  P (Call CallGetState) -> P (Call c) ->
  forall h,
    Forall P (events (host.runActionForState d maxAttempts
                        (host.onDriver (drivers.call c method) : M Host _) t h)).
Proof.
  intros Hg Hc. unfold host.runActionForState.
  apply only_bind; [apply only_inState; exact Hg|].
  intros [|] h.
  - apply only_bind; [intros h0; constructor | intros a h0; apply only_ret].
  - revert h. apply only_bind; [apply only_call; exact Hc|].
    intros [e|] h; [apply only_ret|].
    apply only_WaitFor. apply only_inState. exact Hg.
Qed.

(** The events of an operation between its two log lines. *)
Lemma logged_events (before after : string) (m : M Host (option error)) h :
  events ((host.log_Infof before ;;
           err <- m ;;
           match err with
           | Some e => ret (Some e)
           | None => host.log_Infof after ;; ret None
           end) h) =
  Infof before (host.Name h) :: events (m h) ++
  match result ((host.log_Infof before ;;
                 err <- m ;;
                 match err with
                 | Some e => ret (Some e)
                 | None => host.log_Infof after ;; ret None
                 end) h) with
  | Some _ => []
  | None => [Infof after (host.Name (final (m h)))]
  end.
Proof.
  rewrite (bind_run _ _ _ _ _ _ (log_run W engine_Options swarm_Options
                                         auth_Options before h)).
  destruct (m h) as [[[e|] h1] evs] eqn:Em;
    rewrite (bind_run _ _ _ _ _ _ Em); reflexivity.
Qed.

Lemma Name_after_runActionForState (op : host.Lifecycle) h :
  host.Name (final (host.runActionForState d maxAttempts
                      (host.onDriver (drivers.call (host.actionCall op)
                                                   (host.driverAction d op)))
                      (host.target op) h)) = host.Name h.
Proof.
  apply (preserves_runActionForState W d maxAttempts engine_Options
           swarm_Options auth_Options).
  apply preserves_onDriver.
Qed.

(** X4: Start, Stop and Kill log their announcement first, then only call
    the driver, and log their completion line, last, exactly when they
    succeed. *)
Theorem lifecycle_log_lines (op : host.Lifecycle) h :
  exists calls,
    Forall isCall calls /\
    events (host.run d maxAttempts op h) =
    Infof (announcement op) (host.Name h) :: calls ++
    match result (host.run d maxAttempts op h) with
    | Some _ => []
    | None => [Infof (completion op) (host.Name h)]
    end.
Proof.
  exists (events (host.runActionForState d maxAttempts
                    (host.onDriver (drivers.call (host.actionCall op)
                                                 (host.driverAction d op)))
                    (host.target op) h)).
  split.
  - apply only_runActionForState; exact I.
  - pose proof (Name_after_runActionForState op h) as Hn.
    destruct op;
      cbn [host.run announcement completion host.actionCall host.driverAction
           host.target] in *;
      unfold host.Start, host.Stop, host.Kill;
      rewrite logged_events, Hn; reflexivity.
Qed.

(** X5: Start, Stop and Kill call no method of the driver other than
    GetState and their own action: never GetURL, never UpdateConfigRaw, never
    the action of another operation. *)
Theorem lifecycle_calls_own_action_only (op : host.Lifecycle) h :
  Forall (onlyCalls [CallGetState; host.actionCall op])
         (events (host.run d maxAttempts op h)).
Proof.
  assert (Hbody : forall h0,
             Forall (onlyCalls [CallGetState; host.actionCall op])
                    (events (host.runActionForState d maxAttempts
                               (host.onDriver
                                  (drivers.call (host.actionCall op)
                                                (host.driverAction d op)))
                               (host.target op) h0))).
  { apply only_runActionForState; simpl; auto. }
  revert h.
  destruct op;
    cbn [host.run host.actionCall host.driverAction host.target] in *;
    unfold host.Start, host.Stop, host.Kill;
    (apply only_bind; [apply only_log; intros; exact I|]);
    intros _;
    (apply only_bind; [exact Hbody|]);
    intros [e|] h; try apply only_ret;
    revert h; (apply only_bind; [apply only_log; intros; exact I|]);
    intros _ h; apply only_ret.
Qed.

Lemma lifecycle_calls_start h :
  Forall (onlyCalls [CallGetState; CallStart; CallRestart])
         (events (host.Start d maxAttempts h)).
Proof.
  revert h. unfold host.Start.
  apply only_bind; [apply only_log; intros; exact I|]. intros _.
  apply only_bind; [apply only_runActionForState; simpl; auto|].
  intros [e|] h; [apply only_ret|].
  revert h. apply only_bind; [apply only_log; intros; exact I|].
  intros _ h. apply only_ret.
Qed.

(** The driver actions of Start, Stop and Kill: none, or the own one once. *)
Lemma run_action_calls (op : host.Lifecycle) h :
  actionCalls (events (host.run d maxAttempts op h)) = [] \/
  actionCalls (events (host.run d maxAttempts op h)) = [host.actionCall op].
Proof.
  destruct (run_unfold W d maxAttempts engine_Options swarm_Options auth_Options op)
    as (before & after & ->).
  destruct (logged_run W engine_Options swarm_Options auth_Options before after
              (host.runActionForState d maxAttempts
                 (host.onDriver (drivers.call (host.actionCall op)
                                              (host.driverAction d op)))
                 (host.target op)) h) as (_ & _ & ->).
  destruct (drivers.GetState d (host.Driver h)) as [cur w1] eqn:E.
  destruct (runActionForState_outcome W d maxAttempts engine_Options swarm_Options
              auth_Options (host.actionCall op) (host.driverAction d op)
              (host.target op) h cur w1 E) as [Hsame Hother].
  destruct (state.eqb cur (host.target op)) eqn:Es.
  - apply state_eqb_eq in Es. destruct (Hsame Es) as (_ & -> & _). left. reflexivity.
  - apply state_eqb_neq in Es.
    destruct (host.driverAction d op w1) as [err w2] eqn:Ea.
    destruct (Hother Es err w2 eq_refl) as [(evs & -> & Hact) _].
    right. simpl. rewrite Hact. destruct op; reflexivity.
Qed.

(** X6: Restart calls no method of the driver other than GetState, Start
    and Restart, and at most one of Start and Restart, at most once: it never
    stops or kills the machine, and never starts it twice. *)
Theorem Restart_calls_at_most_one_action h :
  Forall (onlyCalls [CallGetState; CallStart; CallRestart])
         (events (host.Restart d maxAttempts h)) /\
  (actionCalls (events (host.Restart d maxAttempts h)) = [] \/
   actionCalls (events (host.Restart d maxAttempts h)) = [CallStart] \/
   actionCalls (events (host.Restart d maxAttempts h)) = [CallRestart]).
Proof.
  split.
  - assert (HStart : forall h0,
               Forall (onlyCalls [CallGetState; CallStart; CallRestart])
                      (events (host.Start d maxAttempts h0))).
    { intros h0.
      pose proof (lifecycle_calls_start h0) as H. exact H. }
    revert h. unfold host.Restart.
    apply only_bind; [apply only_log; intros; exact I|]. intros _.
    apply only_bind; [apply only_inState; simpl; auto|].
    intros [|] h.
    + revert h. apply only_bind; [exact HStart|].
      intros [e|] h; apply only_ret.
    + revert h. apply only_bind; [apply only_inState; simpl; auto|].
      intros [|] h; [|apply only_ret].
      revert h. apply only_bind; [apply only_call; simpl; auto|].
      intros [e|] h; [apply only_ret|].
      revert h. apply only_bind;
        [apply only_WaitFor, only_inState; simpl; auto|].
      intros [e|] h; apply only_ret.
  - unfold host.Restart.
    rewrite (bind_run _ _ _ _ _ _ (log_run W engine_Options swarm_Options
                                           auth_Options "Restarting %q..." h)).
    destruct (drivers.GetState d (host.Driver h)) as [s1 w1] eqn:E1.
    rewrite (bind_run _ _ _ _ _ _
               (inState_run W d engine_Options swarm_Options auth_Options
                            state.Stopped h s1 w1 E1)).
    destruct (state.eqb s1 state.Stopped).
    + rewrite rewrap_run.
      unfold events, result, final; cbn [fst snd app actionCalls isAction].
      destruct (run_action_calls host.OpStart (host.withDriver h w1)) as [H|H];
        cbn [host.run host.actionCall] in H; unfold events in H;
        rewrite H; auto.
    + destruct (drivers.GetState d w1) as [s2 w2] eqn:E2.
      rewrite (bind_run _ _ _ _ _ _
                 (inState_run W d engine_Options swarm_Options auth_Options
                              state.Running (host.withDriver h w1) s2 w2 E2)).
      destruct (state.eqb s2 state.Running); [|left; reflexivity].
      destruct (drivers.Restart d w2) as [err w3] eqn:Ea.
      rewrite (bind_run _ _ _ _ _ _
                 (action_run W engine_Options swarm_Options auth_Options
                             CallRestart (drivers.Restart d)
                             (host.withDriver h w2) err w3 Ea)).
      right; right. destruct err as [e|]; [reflexivity|].
      rewrite rewrap_run.
      change (host.withDriver (host.withDriver h w2) w3)
        with (host.withDriver h w3).
      destruct (WaitFor_outcome W d engine_Options swarm_Options auth_Options
                  state.Running maxAttempts (host.withDriver h w3)) as [Hact _].
      unfold events in *; cbn [snd app actionCalls isAction] in *.
      rewrite Hact. reflexivity.
Qed.

(** X7: UpdateConfig calls the driver once, with the configuration it was
    given, logs nothing, and in every outcome leaves ConfigVersion,
    DriverName, DriverPath, HostOptions and Name as they were. *)
Theorem UpdateConfig_single_call (rawConfig : bytes) h :
  events (host.UpdateConfig d typedErrorText rawConfig h) =
    [Call (CallUpdateConfigRaw rawConfig)] /\
  host.ConfigVersion (final (host.UpdateConfig d typedErrorText rawConfig h)) =
    host.ConfigVersion h /\
  host.DriverName (final (host.UpdateConfig d typedErrorText rawConfig h)) =
    host.DriverName h /\
  host.DriverPath (final (host.UpdateConfig d typedErrorText rawConfig h)) =
    host.DriverPath h /\
  host.HostOptions (final (host.UpdateConfig d typedErrorText rawConfig h)) =
    host.HostOptions h /\
  host.Name (final (host.UpdateConfig d typedErrorText rawConfig h)) =
    host.Name h /\
  host.Driver (final (host.UpdateConfig d typedErrorText rawConfig h)) =
    snd (drivers.UpdateConfigRaw d rawConfig (host.Driver h)).
Proof.
  unfold host.UpdateConfig.
  destruct (drivers.UpdateConfigRaw d rawConfig (host.Driver h)) as [err w1] eqn:E.
  rewrite (bind_run _ _ _ _ _ _
             (action_run W engine_Options swarm_Options auth_Options
                         (CallUpdateConfigRaw rawConfig)
                         (drivers.UpdateConfigRaw d rawConfig) h err w1 E)).
  destruct err as [e|];
    [destruct (errorsAsServerError e && _)%bool|]; repeat split.
Qed.

(** X8: the error UpdateConfig returns is never an [rpc.ServerError] with
    the text "Not Implemented": that failure always reaches the caller as
    [ErrNotImplemented]. *)
Theorem UpdateConfig_never_returns_sentinel (rawConfig : bytes) h (e : error) :
  result (host.UpdateConfig d typedErrorText rawConfig h) = Some e ->
  errorsAsServerError e = true ->
  host.Error typedErrorText e <> "Not Implemented".
Proof.
  unfold host.UpdateConfig.
  destruct (drivers.UpdateConfigRaw d rawConfig (host.Driver h)) as [err w1] eqn:E.
  rewrite (bind_run _ _ _ _ _ _
             (action_run W engine_Options swarm_Options auth_Options
                         (CallUpdateConfigRaw rawConfig)
                         (drivers.UpdateConfigRaw d rawConfig) h err w1 E)).
  destruct err as [e0|]; [|discriminate].
  destruct (errorsAsServerError e0 && _)%bool eqn:Eb.
  - intros [= <-]. discriminate.
  - intros [= <-] Has. rewrite Has in Eb. cbn [andb] in Eb.
    apply String.eqb_neq. exact Eb.
Qed.

End HostEvents.

Lemma UpdateConfig_never_returns_sentinel_witness :
  host.Error sample.noText (ServerError "connection is shut down")
  <> "Not Implemented".
Proof.
  apply (UpdateConfig_never_returns_sentinel
           sample.VM (sample.driver (Some (ServerError "connection is shut down")))
           sample.noText unit unit unit [Byte.x7b; Byte.x7d]
           (sample.crc sample.runningVM)
           (ServerError "connection is shut down"));
    reflexivity.
Defined.

(** ** More on the vsock check *)

(** X10: of the mode of the device the check reads the two group bits only:
    two machines that differ in the other bits of the mode of [/dev/vsock],
    and in nothing else the check looks at, get the same answer. *)
Theorem checkVsock_reads_group_bits_only (os1 os2 : preflight.OS)
        (i1 i2 : preflight.FileInfo) :
  preflight.os_Executable os1 = preflight.os_Executable os2 ->
  (forall name args,
      preflight.crcos_RunWithDefaultLocale os1 name args =
      preflight.crcos_RunWithDefaultLocale os2 name args) ->
  (forall gid, preflight.user_LookupGroupId os1 gid =
               preflight.user_LookupGroupId os2 gid) ->
  preflight.os_Stat os1 "/dev/vsock" = Ok i1 ->
  preflight.os_Stat os2 "/dev/vsock" = Ok i2 ->
  preflight.Sys i1 = preflight.Sys i2 ->
  Z.land (preflight.Mode i1) 48 = Z.land (preflight.Mode i2) 48 ->
  preflight.checkVsock os1 = preflight.checkVsock os2.
Proof.
  intros He Hr Hg Hs1 Hs2 Hsys Hmode. unfold preflight.checkVsock.
  rewrite He. destruct (preflight.os_Executable os2) as [executable|]; [|reflexivity].
  rewrite Hr.
  destruct (preflight.crcos_RunWithDefaultLocale os2 "getcap" [executable])
    as [[getcap stderr] [err|]]; [reflexivity|].
  destruct (negb (Contains getcap "cap_net_bind_service+eip")); [reflexivity|].
  rewrite Hs1, Hs2, Hsys, Hmode.
  destruct (preflight.Sys i2) as [stat|]; [|reflexivity].
  rewrite Hg. reflexivity.
Qed.

Lemma checkVsock_reads_group_bits_only_witness :
  preflight.checkVsock (sample.linuxBox (sample.charDevice 48 (* 0060 *))) =
  preflight.checkVsock (sample.linuxBox 511 (* 0777 *)).
Proof.
  apply (checkVsock_reads_group_bits_only
           (sample.linuxBox (sample.charDevice 48)) (sample.linuxBox 511)
           (preflight.mkFileInfo (sample.charDevice 48)
                                 (Some (preflight.mkStat_t 107)))
           (preflight.mkFileInfo 511 (Some (preflight.mkStat_t 107))));
    reflexivity.
Defined.

(** ** More on the registry *)

Section RegistryCoverage.

Variable network_Mode : Type.
Variable network_Mode_eq_dec : forall a b : network_Mode, {a = b} + {a <> b}.
Variables DefaultMode VSockMode : network_Mode.
Variables Ubuntu RHEL CentOS Fedora : preflight.OsType.
Variables SetupOnly CleanUpOnly : Z.
Variables genericPreflightChecks nonWinPreflightChecks redhatPreflightChecks
  : list preflight.Check.

Local Abbreviation vsock := preflight.vsockPreflightChecks.
Local Abbreviation libvirtPreflightChecks :=
  (preflight.libvirtPreflightChecks SetupOnly CleanUpOnly).
Local Abbreviation getPreflightChecksForDistro :=
  (preflight.getPreflightChecksForDistro
     network_Mode network_Mode_eq_dec DefaultMode VSockMode
     Ubuntu RHEL CentOS Fedora SetupOnly CleanUpOnly
     genericPreflightChecks nonWinPreflightChecks redhatPreflightChecks).
Local Abbreviation getAllPreflightChecks :=
  (preflight.getAllPreflightChecks
     network_Mode network_Mode_eq_dec DefaultMode VSockMode
     Ubuntu RHEL CentOS Fedora SetupOnly CleanUpOnly
     genericPreflightChecks nonWinPreflightChecks redhatPreflightChecks).
Local Abbreviation getPreflightChecks :=
  (preflight.getPreflightChecks
     network_Mode network_Mode_eq_dec DefaultMode VSockMode
     Ubuntu RHEL CentOS Fedora SetupOnly CleanUpOnly
     genericPreflightChecks nonWinPreflightChecks redhatPreflightChecks).

(** X11: the checks depend on the distribution only through its being
    Ubuntu or not: RHEL, CentOS, Fedora and every distribution the code does
    not know get the same list in the same mode. *)
Theorem checks_same_for_all_but_Ubuntu (d1 d2 : preflight.OsType)
        (networkMode : network_Mode) :
  d1 <> Ubuntu -> d2 <> Ubuntu ->
  fst (getPreflightChecksForDistro d1 networkMode) =
  fst (getPreflightChecksForDistro d2 networkMode).
Proof.
  intros H1 H2. rewrite !getPreflightChecksForDistro_eq. cbn [fst].
  apply String.eqb_neq in H1, H2. rewrite H1, H2. reflexivity.
Qed.

(** X12: when the vsock mode is not the default mode, the list built in
    vsock mode is the same for every distribution: the common checks and the
    vsock check, and no check of the Red Hat table, not even on RHEL. *)
Theorem vsock_mode_ignores_distribution (distro : preflight.OsType) :
  VSockMode <> DefaultMode ->
  fst (getPreflightChecksForDistro distro VSockMode) =
  genericPreflightChecks ++ nonWinPreflightChecks ++ libvirtPreflightChecks
  ++ [vsock].
Proof.
  intros Hne. rewrite getPreflightChecksForDistro_eq. cbn [fst].
  destruct (network_Mode_eq_dec VSockMode VSockMode); [|congruence].
  destruct (network_Mode_eq_dec VSockMode DefaultMode); [congruence|].
  destruct (String.eqb distro Ubuntu); rewrite app_nil_r; reflexivity.
Qed.

(** X13: the list of all checks holds every check that
    [getPreflightChecks] returns, in whatever mode. *)
Theorem all_checks_cover_every_mode (os : preflight.OS) (b : bool)
        (networkMode : network_Mode) :
  incl (fst (getPreflightChecks os b networkMode))
       (fst (getAllPreflightChecks os)).
Proof.
  unfold preflight.getAllPreflightChecks, preflight.getPreflightChecks.
  destruct (preflight.distro os) as [id log1].
  destruct (getPreflightChecksForDistro id networkMode) as [checks log2] eqn:E.
  destruct (getPreflightChecksForDistro id DefaultMode) as [checks0 log0] eqn:E0.
  cbn [fst].
  rewrite getPreflightChecksForDistro_eq in E, E0.
  injection E as <- _. injection E0 as <- _.
  generalize (preflight.libvirtPreflightChecks SetupOnly CleanUpOnly).
  intros l c. rewrite !in_app_iff.
  destruct (String.eqb id Ubuntu),
    (network_Mode_eq_dec networkMode VSockMode),
    (network_Mode_eq_dec networkMode DefaultMode),
    (network_Mode_eq_dec DefaultMode VSockMode),
    (network_Mode_eq_dec DefaultMode DefaultMode);
    subst; try congruence; cbn [In]; tauto.
Qed.

(** X14: when the release of the system cannot be read, the distribution is
    taken to be "unknown": unless that is the name of a known distribution,
    two warnings are logged, the failure and then the missing support, and
    the checks are those of an unrecognized distribution. *)
Theorem unreadable_release_falls_back (os : preflight.OS) (b : bool)
        (networkMode : network_Mode) (err : error) :
  preflight.linux_GetOsRelease os = Err err ->
  "unknown" <> Ubuntu -> "unknown" <> RHEL ->
  "unknown" <> CentOS -> "unknown" <> Fedora ->
  getPreflightChecks os b networkMode =
  (genericPreflightChecks ++ nonWinPreflightChecks ++ libvirtPreflightChecks
   ++ (if network_Mode_eq_dec networkMode VSockMode then [vsock] else [])
   ++ (if network_Mode_eq_dec networkMode DefaultMode
       then redhatPreflightChecks else []),
   [preflight.Warnf "cannot get distribution name: %v" (preflight.ArgError err);
    preflight.Warnf
      "distribution-specific preflight checks are not implemented for %s"
      (preflight.ArgOsType "unknown")]).
Proof.
  intros Hrel Hu Hr Hc Hf.
  unfold preflight.getPreflightChecks, preflight.distro. rewrite Hrel.
  rewrite getPreflightChecksForDistro_eq.
  apply String.eqb_neq in Hu, Hr, Hc, Hf. rewrite Hu, Hr, Hc, Hf.
  reflexivity.
Qed.

(** X15: in every mode the list built for Ubuntu is a prefix of the list
    built for any other distribution. *)
Theorem Ubuntu_list_is_prefix (distro : preflight.OsType)
        (networkMode : network_Mode) :
  exists more,
    fst (getPreflightChecksForDistro distro networkMode) =
    fst (getPreflightChecksForDistro Ubuntu networkMode) ++ more.
Proof.
  rewrite !getPreflightChecksForDistro_eq. cbn [fst].
  rewrite String.eqb_refl.
  exists (if String.eqb distro Ubuntu then []
          else if network_Mode_eq_dec networkMode DefaultMode
               then redhatPreflightChecks else []).
  rewrite <- !app_assoc. reflexivity.
Qed.

(** X16: in the libvirt table followed by the vsock check, no two entries
    have the same configuration key; an entry with a detection function has
    a remediation function, a key and both descriptions; an entry without
    one has a teardown function and its description. *)
Theorem libvirt_table_well_formed :
  NoDup (map preflight.configKeySuffix (libvirtPreflightChecks ++ [vsock])) /\
  Forall (fun c =>
            match preflight.check c with
            | Some _ =>
                preflight.fix_ c <> None /\
                preflight.configKeySuffix c <> "" /\
                preflight.checkDescription c <> "" /\
                preflight.fixDescription c <> ""
            | None =>
                preflight.cleanup c <> None /\
                preflight.cleanupDescription c <> ""
            end)
         (libvirtPreflightChecks ++ [vsock]).
Proof.
  split.
  - unfold preflight.libvirtPreflightChecks. cbn [app map preflight.configKeySuffix
      preflight.vsockPreflightChecks].
    repeat (constructor; [cbn [In]; intuition discriminate|]). constructor.
  - unfold preflight.libvirtPreflightChecks. cbn [app].
    repeat (constructor; [cbn; repeat split; discriminate|]). constructor.
Qed.

End RegistryCoverage.

Lemma checks_same_for_all_but_Ubuntu_witness :
  fst (sample.getPreflightChecksForDistro "arch-unknown-xyz" sample.Default) =
  fst (sample.getPreflightChecksForDistro "rhel" sample.Default).
Proof.
  apply (checks_same_for_all_but_Ubuntu
           sample.Mode sample.Mode_eq_dec sample.Default sample.VSock
           "ubuntu" "rhel" "centos" "fedora" 1%Z 4%Z
           sample.generic sample.nonWin sample.redhat
           "arch-unknown-xyz" "rhel" sample.Default); discriminate.
Defined.

Lemma vsock_mode_ignores_distribution_witness :
  fst (sample.getPreflightChecksForDistro "rhel" sample.VSock) =
  sample.generic ++ sample.nonWin ++ preflight.libvirtPreflightChecks 1 4
  ++ [preflight.vsockPreflightChecks].
Proof.
  apply (vsock_mode_ignores_distribution
           sample.Mode sample.Mode_eq_dec sample.Default sample.VSock
           "ubuntu" "rhel" "centos" "fedora" 1%Z 4%Z
           sample.generic sample.nonWin sample.redhat "rhel"); discriminate.
Defined.

Lemma unreadable_release_falls_back_witness :
  snd (preflight.getPreflightChecks
         sample.Mode sample.Mode_eq_dec sample.Default sample.VSock
         "ubuntu" "rhel" "centos" "fedora" 1 4
         sample.generic sample.nonWin sample.redhat
         (preflight.mkOS (Ok "/usr/local/bin/crc")
                         (fun _ _ => ("", "", None))
                         (fun _ => Err (errorString "no such file or directory"))
                         (fun _ => Err (errorString "unknown group"))
                         (Err (errorString "open /etc/os-release: no such file")))
         true sample.Default) =
  [preflight.Warnf "cannot get distribution name: %v"
     (preflight.ArgError (errorString "open /etc/os-release: no such file"));
   preflight.Warnf
     "distribution-specific preflight checks are not implemented for %s"
     (preflight.ArgOsType "unknown")].
Proof.
  rewrite (unreadable_release_falls_back
             sample.Mode sample.Mode_eq_dec sample.Default sample.VSock
             "ubuntu" "rhel" "centos" "fedora" 1%Z 4%Z
             sample.generic sample.nonWin sample.redhat _ true sample.Default
             (errorString "open /etc/os-release: no such file"));
    try reflexivity; discriminate.
Defined.

(** ** The remediation of the vsock check *)

Section Remediation.

Variable Machine : Type.
Variable os_Executable : Machine -> res string.
Variable crcos_RunWithPrivilege :
  string -> list string -> Machine -> (string * string * option error) * Machine.

Local Abbreviation fixVsock :=
  (remediation.fixVsock os_Executable crcos_RunWithPrivilege).
Local Abbreviation RunWithPrivilege :=
  (remediation.RunWithPrivilege crcos_RunWithPrivilege).
Local Abbreviation Ran := (remediation.Ran crcos_RunWithPrivilege).

(** X17: the remediation succeeds exactly when the four privileged calls
    setcap, modprobe, chown and chmod, made in this order, all succeed; it
    has then made these four calls and no other, and leaves the machine as
    they left it. *)
Theorem fixVsock_succeeds_iff (m : Machine) (executable : string) :
  os_Executable m = Ok executable ->
  (fst (fst (fixVsock m)) = None <->
   exists m', Ran (remediation.vsockScript executable) m m') /\
  (forall m', Ran (remediation.vsockScript executable) m m' ->
              fixVsock m = (None, m', remediation.vsockScript executable)).
Proof.
  intros He.
  assert (Hfwd : forall m', Ran (remediation.vsockScript executable) m m' ->
                            fixVsock m =
                            (None, m', remediation.vsockScript executable)).
  { intros m' H. unfold remediation.vsockScript in H.
    inversion H as [|c1 cs1 ma m1 mb H1 R1]; subst.
    inversion R1 as [|c2 cs2 mc m2 md H2 R2]; subst.
    inversion R2 as [|c3 cs3 me m3 mf H3 R3]; subst.
    inversion R3 as [|c4 cs4 mg m4 mh H4 R4]; subst.
    inversion R4; subst.
    unfold remediation.fixVsock. rewrite He. cbn zeta.
    rewrite H1, H2, H3, H4. reflexivity. }
  split; [|exact Hfwd].
  split.
  - unfold remediation.fixVsock. rewrite He. cbn zeta.
    destruct (RunWithPrivilege _ m) as [[e1|] m1] eqn:H1; [discriminate|].
    destruct (RunWithPrivilege _ m1) as [[e2|] m2] eqn:H2; [discriminate|].
    destruct (RunWithPrivilege _ m2) as [[e3|] m3] eqn:H3; [discriminate|].
    destruct (RunWithPrivilege _ m3) as [[e4|] m4] eqn:H4; [discriminate|].
    intros _. exists m4. unfold remediation.vsockScript.
    repeat (econstructor; [eassumption|]). constructor.
  - intros [m' H]. rewrite (Hfwd m' H). reflexivity.
Qed.

(** The call number [k] of the script failed from the machine [mprev]. *)
Ltac failed_after k mprev Hfail :=
  match goal with
  | |- exists done c rest m1, _ = Ok ?exe /\ _ =>
      exists (firstn k (remediation.vsockScript exe));
      do 2 eexists; exists mprev;
      split; [reflexivity|];
      split; [unfold remediation.vsockScript; reflexivity|];
      split; [cbn [firstn remediation.vsockScript];
              repeat (econstructor; [eassumption|]); constructor|];
      split; [exact Hfail | reflexivity]
  end.

(** X18: a failure of the remediation is the failure of [os.Executable],
    no privileged call having been made, or the failure of one of the four
    calls: the calls before it succeeded and keep their effect, it is the
    last call made, and its error is the one returned. *)
Theorem fixVsock_stops_at_first_failure (m m' : Machine) (e : error)
        (made : list remediation.Command) :
  fixVsock m = (Some e, m', made) ->
  (os_Executable m = Err e /\ m' = m /\ made = []) \/
  (exists executable done c rest m1,
      os_Executable m = Ok executable /\
      remediation.vsockScript executable = done ++ c :: rest /\
      Ran done m m1 /\
      RunWithPrivilege c m1 = (Some e, m') /\
      made = done ++ [c]).
Proof.
  unfold remediation.fixVsock.
  destruct (os_Executable m) as [executable|err] eqn:He.
  - cbn zeta. intros H. right. exists executable.
    destruct (RunWithPrivilege _ m) as [[e1|] m1] eqn:H1.
    { injection H as <- <- <-. failed_after 0 m H1. }
    destruct (RunWithPrivilege _ m1) as [[e2|] m2] eqn:H2.
    { injection H as <- <- <-. failed_after 1 m1 H2. }
    destruct (RunWithPrivilege _ m2) as [[e3|] m3] eqn:H3.
    { injection H as <- <- <-. failed_after 2 m2 H3. }
    destruct (RunWithPrivilege _ m3) as [[e4|] m4] eqn:H4; [|discriminate].
    injection H as <- <- <-. failed_after 3 m3 H4.
  - intros [= <- <- <-]. left. repeat split.
Qed.

End Remediation.

Lemma fixVsock_succeeds_iff_witness :
  remediation.fixVsock sampleFix.executable (sampleFix.run []) [] =
  (None,
   [["chmod"; "g+rw"; "/dev/vsock"];
    ["chown"; "root:libvirt"; "/dev/vsock"];
    ["modprobe"; "vhost_vsock"];
    ["setcap"; "cap_net_bind_service=+eip"; "/usr/local/bin/crc"]],
   remediation.vsockScript "/usr/local/bin/crc").
Proof.
  destruct (fixVsock_succeeds_iff
              sampleFix.Machine sampleFix.executable (sampleFix.run [])
              [] "/usr/local/bin/crc" eq_refl) as [_ Hall].
  apply Hall. unfold remediation.vsockScript.
  repeat (econstructor; [reflexivity|]). constructor.
Defined.

Lemma fixVsock_stops_at_first_failure_witness :
  exists executable done c rest m1,
    sampleFix.executable [] = Ok executable /\
    remediation.vsockScript executable = done ++ c :: rest /\
    remediation.Ran (sampleFix.run ["chown"]) done [] m1 /\
    remediation.RunWithPrivilege (sampleFix.run ["chown"]) c m1 =
      (Some (errorString "exit status 1"),
       [["modprobe"; "vhost_vsock"];
        ["setcap"; "cap_net_bind_service=+eip"; "/usr/local/bin/crc"]]) /\
    firstn 3 (remediation.vsockScript "/usr/local/bin/crc") = done ++ [c].
Proof.
  destruct (fixVsock_stops_at_first_failure
              sampleFix.Machine sampleFix.executable (sampleFix.run ["chown"])
              [] [["modprobe"; "vhost_vsock"];
                  ["setcap"; "cap_net_bind_service=+eip"; "/usr/local/bin/crc"]]
              (errorString "exit status 1")
              (firstn 3 (remediation.vsockScript "/usr/local/bin/crc"))
              eq_refl) as [(H & _) | H].
  - discriminate H.
  - exact H.
Defined.
